(** * The agent's message-processing nodes (app/agent/nodes.py)

    A shallow embedding of [AgentNodes]: the five nodes of the workflow
    ([classify_message], [retrieve_context], [generate_response],
    [check_escalation], [validate_response]) as functions over the state
    dictionary, with the provider calls they make recorded in a trace.

    Conventions of the embedding.
    - A Python [str] is a [string]; one [ascii] is one character (a code
      point below 256), so [len] is [String.length].
    - The state is the dictionary the nodes receive: a finite map from key
      names to values.  [state.get(k, d)] is [get st k d] and
      [state[k] = v] is [<[k:=v]> st].
    - A node returns its updated state, or raises; the provider calls made
      on the way are kept in the trace of the computation.
    - Logging has no effect on the state and is left out. *)

From Stdlib Require Import Floats Ascii.
From stdpp Require Import gmap strings list.

Local Open Scope string_scope.

(** ** Python strings *)

Module Str.

Definition chr (n : nat) : string := String (Ascii.ascii_of_nat n) "".

(** The line feed and the double quote, which a literal cannot hold. *)
Definition nl_char : ascii := Ascii.ascii_of_nat 10.
Definition nl : string := String nl_char "".
Definition dq : string := chr 34%nat.

(** [str.isspace] on one character: TAB, LF, VT, FF, CR, FS, GS, RS, US,
    SPACE, NEL and NBSP are the white-space characters below 256. *)
Definition is_space (c : ascii) : bool :=
  let n := Ascii.nat_of_ascii c in
  (((9 <=? n) && (n <=? 13)) || ((28 <=? n) && (n <=? 32))
   || (n =? 133) || (n =? 160))%nat.

(** [str.lower] on one character: A-Z, and the Latin-1 capitals
    0xC0-0xDE (the multiplication sign 0xD7 apart), move up by 32. *)
Definition lower_char (c : ascii) : ascii :=
  let n := Ascii.nat_of_ascii c in
  if (((65 <=? n) && (n <=? 90))
      || ((192 <=? n) && (n <=? 222) && negb (n =? 215)))%nat
  then Ascii.ascii_of_nat (n + 32)%nat else c.

Fixpoint lower (s : string) : string :=
  match s with
  | "" => ""
  | String c s' => String (lower_char c) (lower s')
  end.

(** [needle in hay]. *)
Fixpoint contains (needle hay : string) : bool :=
  String.prefix needle hay
  || match hay with
     | "" => false
     | String _ hay' => contains needle hay'
     end.

(** [s.split(sep)] for a separator of one character. *)
Fixpoint split (sep : ascii) (s : string) : list string :=
  match s with
  | "" => [""]
  | String c s' =>
      if Ascii.eqb c sep then "" :: split sep s'
      else match split sep s' with
           | w :: ws => String c w :: ws
           | [] => [String c ""]
           end
  end.

Fixpoint lstrip (s : string) : string :=
  match s with
  | "" => ""
  | String c s' => if is_space c then lstrip s' else s
  end.

Fixpoint rstrip (s : string) : string :=
  match s with
  | "" => ""
  | String c s' =>
      match rstrip s' with
      | "" => if is_space c then "" else String c ""
      | r => String c r
      end
  end.

(** [s.strip()]. *)
Definition strip (s : string) : string := rstrip (lstrip s).

(** [len(s)]. *)
Definition len (s : string) : nat := String.length s.

(** Every character of [s] is white space. *)
Fixpoint all_space (s : string) : bool :=
  match s with
  | "" => true
  | String c s' => is_space c && all_space s'
  end.

End Str.

(** ** Values, the state dictionary, settings *)

(** One entry of [conversation_history]. *)
Record history_entry := HistoryEntry {
  sender_type : string;
  content : string
}.

(** The values the state dictionary holds. *)
Inductive val :=
| VNone
| VBool (b : bool)
| VStr (s : string)
| VFloat (f : float)
| VHistory (h : list history_entry).

(** The truth value of an object ([if v:], [not v], [a or b]). *)
Definition truthy (v : val) : bool :=
  match v with
  | VNone => false
  | VBool b => b
  | VStr s => negb (String.eqb s "")
  | VFloat f => negb (PrimFloat.eqb f 0%float)
  | VHistory h => match h with [] => false | _ => true end
  end.

(** [v == s] for a string [s]: only an equal string is equal to it. *)
Definition eq_str (v : val) (s : string) : bool :=
  match v with
  | VStr s' => String.eqb s' s
  | _ => false
  end.

Abbreviation state := (gmap string val).

(** [state.get(k, d)]. *)
Definition get (st : state) (k : string) (d : val) : val :=
  default d (st !! k).

(** The options of [Settings] (app/config.py) the nodes read. *)
Record Settings := {
  agent_prompt_variant : string;
  agent_default_language : string;
  agent_auto_detect_language : bool
}.

(** The values of app/config.py when the environment sets none. *)
Definition default_settings : Settings := {|
  agent_prompt_variant := "A";
  agent_default_language := "en";
  agent_auto_detect_language := true
|}.

(** ** Computations: a result or an exception, and the calls made *)

Inductive exn :=
| TypeError
| IndexError
| KeyError
| TemplateError
| ProviderError (detail : string).

Inductive result (A : Type) :=
| Ok (a : A)
| Raise (e : exn).
Arguments Ok {A} a.
Arguments Raise {A} e.

(** What [self.llm.invoke(prompt.format_messages(message=..., context=...))]
    hands to the provider: the template and the two values that fill it. *)
Record request := Request {
  req_template : string;
  req_message : val;
  req_context : val
}.

Inductive event :=
| LLMInvoke (r : request)
| RuleBased (message : string).

Record M (A : Type) := MkM {
  trace : list event;
  outcome : result A
}.
Arguments MkM {A} trace outcome.
Arguments trace {A} m.
Arguments outcome {A} m.

#[global] Instance M_ret : MRet M := fun A a => MkM [] (Ok a).

#[global] Instance M_bind : MBind M := fun A B k m =>
  match outcome m with
  | Ok a => MkM (trace m ++ trace (k a)) (outcome (k a))
  | Raise e => MkM (trace m) (Raise e)
  end.

Definition raise {A} (e : exn) : M A := MkM [] (Raise e).

Definition emit (ev : event) : M unit := MkM [ev] (Ok tt).

(** [try: body / except Exception: handler]. *)
Definition try_except {A} (body : M A) (handler : exn -> M A) : M A :=
  match outcome body with
  | Ok a => body
  | Raise e => MkM (trace body ++ trace (handler e)) (outcome (handler e))
  end.

(** [l[i]]. *)
Definition index {A} (l : list A) (i : nat) : M A :=
  match l !! i with
  | Some a => mret a
  | None => raise IndexError
  end.

(** The arguments of a helper that works on a [str], a [float] or a history:
    a value of another kind is outside the data model of the state, and the
    node is taken to raise [TypeError] where it would use it. *)
Definition as_str (v : val) : M string :=
  match v with VStr s => mret s | _ => raise TypeError end.

Definition as_float (v : val) : M float :=
  match v with VFloat f => mret f | _ => raise TypeError end.

Definition as_history (v : val) : M (list history_entry) :=
  match v with VHistory h => mret h | _ => raise TypeError end.

(** The provider: [None] when no LLM is configured; otherwise what
    [invoke] answers ([response.content]) or raises, for each request. *)
Definition provider := request -> result string.

Definition invoke (p : provider) (r : request) : M string :=
  MkM [LLMInvoke r] (p r).

(** ** The prompt formatter (langchain.prompts)

    [ChatPromptTemplate.from_template(t).format_messages(message=m, context=c)]
    reads the fields of the template text [t] and fills them with the two
    values.  It belongs to the langchain library, not to the sources: the
    nodes are embedded over any behaviour of it.  For a template and two
    values it gives the messages, for which [Request t m c] stands, or it
    raises, as it does for a text with a field that is neither [message] nor
    [context].

    [classify_message] formats the constant [CLASSIFICATION_PROMPT], whose
    fields are [message] and [context], and the step is taken to succeed
    there.  The template of [generate_response] carries the language of the
    state, so the step is part of the node. *)
Class PromptFormatter := {
  format_messages : string -> val -> val -> result unit
}.

(** [prompt = ChatPromptTemplate.from_template(template)] followed by
    [prompt.format_messages(message=message, context=context)]. *)
Definition format_prompt {formatter : PromptFormatter} (template : string)
    (message context : val) : M request :=
  MkM [] (match format_messages template message context with
          | Ok _ => Ok (Request template message context)
          | Raise e => Raise e
          end).

(** ** The prompts (app/agent/prompts.py) *)

Definition CLASSIFICATION_PROMPT : string :=
  "You are an AI assistant that classifies customer messages into intents.

Analyze the following message and classify it into ONE of these categories:
- SUPPORT: Customer support queries, issues, complaints, or requests for help
- SALES: Sales inquiries, pricing questions, product information requests
- GENERAL: General questions, greetings, or casual conversation
- URGENT: Messages indicating urgency, frustration, or requiring immediate human attention

Consider the following indicators for URGENT classification:
- Strong negative emotions (anger, frustration, distress)
- Words like "
  +:+ Str.dq
  +:+ "ridiculous"
  +:+ Str.dq
  +:+ ", "
  +:+ Str.dq
  +:+ "unacceptable"
  +:+ Str.dq
  +:+ ", "
  +:+ Str.dq
  +:+ "immediately"
  +:+ Str.dq
  +:+ ", "
  +:+ Str.dq
  +:+ "asap"
  +:+ Str.dq
  +:+ "
- Multiple exclamation marks
- Mentions of legal action or complaints
- Critical issues (billing errors, payment problems, account access issues)

Message: {message}

Previous context (if any): {context}

Respond with ONLY the classification (SUPPORT, SALES, GENERAL, or URGENT) and a brief reason.
Format: CLASSIFICATION: <category>
REASON: <brief explanation>
".

Definition SUPPORT_RESPONSE_PROMPT_A : string :=
  "You are a professional and empathetic customer support agent.

Your task is to respond to the customer's support query with:
- Empathy and understanding
- Professional tone
- Clear and helpful information
- Request for additional details if needed (e.g., order number, account email)
- Reassurance that you're here to help

Customer Message: {message}

Conversation Context: {context}

Generate a helpful and empathetic response. Keep it concise (2-3 sentences).
".

Definition SUPPORT_RESPONSE_PROMPT_B : string :=
  "You are a highly empathetic, solution-focused customer support specialist.

Your task is to:
- Acknowledge the customer's feelings first
- Clearly explain what you can do next
- Ask only for the minimum necessary details
- Reassure them that their issue is being prioritized

Customer Message: {message}

Conversation Context: {context}

Generate a concise response (2-3 sentences) that is calm, empathetic, and action-oriented.
".

Definition SALES_RESPONSE_PROMPT_A : string :=
  "You are a persuasive and informative sales agent.

Your task is to respond to the customer's sales inquiry with:
- Enthusiastic and professional tone
- Clear product/pricing information (if you have it, otherwise offer to provide it)
- Value propositions and benefits
- Call-to-action (schedule demo, request more info, etc.)
- Lead qualification questions when appropriate

Customer Message: {message}

Conversation Context: {context}

Generate a persuasive sales response. Keep it concise (2-3 sentences) and engaging.
".

Definition SALES_RESPONSE_PROMPT_B : string :=
  "You are a consultative B2B sales specialist.

Your task is to:
- Confirm understanding of the customer's need
- Share 1-2 key value propositions
- Offer a clear next step (demo, call, or proposal)

Customer Message: {message}

Conversation Context: {context}

Generate a concise (2-3 sentences) response that feels consultative, not pushy.
".

Definition GENERAL_RESPONSE_PROMPT_A : string :=
  "You are a friendly and helpful AI assistant.

Your task is to respond to general inquiries or casual conversation with:
- Friendly and approachable tone
- Helpful information
- Offer to assist with specific questions

Customer Message: {message}

Conversation Context: {context}

Generate a friendly response. Keep it concise (1-2 sentences).
".

Definition GENERAL_RESPONSE_PROMPT_B : string :=
  "You are a concise, friendly AI assistant.

Your task is to:
- Greet the user briefly
- Acknowledge their message
- Offer concrete next help

Customer Message: {message}

Conversation Context: {context}

Generate a short (1-2 sentences) response that is warm and clear.
".

Definition ESCALATION_MESSAGE : string :=
  "I understand this is important to you, and I want to make sure you get the best possible assistance. I'm connecting you with a human agent who will be able to help you right away. They'll be with you shortly.

In the meantime, your case has been flagged as high priority.".

Definition MOCK_RESPONSES : gmap string string :=
  list_to_map [
    ("support", "Thank you for reaching out! I understand your concern. Could you please provide your order number or account email so I can look into this for you right away?");
    ("sales", "Thank you for your interest in our enterprise plan! For 50 users, our pricing starts at $X per month. I'd be happy to schedule a demo to show you all the features. Would that work for you?");
    ("general", "Hello! Thanks for getting in touch. How can I assist you today?");
    ("urgent", ESCALATION_MESSAGE)
  ].

(** ** The helpers of app.agent.tools

    The nodes import these from app/agent/tools.py, which is not among the
    sources, and call them on the message, the history and the generated
    text.  The nodes are embedded over any implementation of them. *)
Class Tools := {
  detect_urgency : string -> bool;
  extract_sentiment_indicators : string -> float;
  format_context : list history_entry -> string;
  detect_language : string -> string;
  select_prompt_variant : string -> string -> string;
  adjust_response_for_sentiment : string -> float -> string
}.

(** The fixed reply of [validate_response] to a rejected response. *)
Definition HANDOFF_MESSAGE : string :=
  "I apologize, but I'm having trouble generating a response. Let me connect you with a human agent.".

(** The reasons [check_escalation] records. *)
Definition URGENT_REASON : string :=
  "Urgent issue requiring immediate human attention".
Definition NEGATIVE_REASON : string :=
  "Highly negative sentiment detected".

(** [-0.6], the nearest double, as Python reads the literal. *)
Definition NEGATIVE_THRESHOLD : float := (-0x1.3333333333333p-1)%float.

(** [_rule_based_classification]. *)
Definition _rule_based_classification (message : string) : string :=
  let message_lower := Str.lower message in
  let sales_keywords :=
    ["price"; "pricing"; "cost"; "buy"; "purchase"; "plan"; "enterprise"; "demo"] in
  if existsb (fun keyword => Str.contains keyword message_lower) sales_keywords
  then "sales"
  else
    let support_keywords :=
      ["order"; "tracking"; "issue"; "problem"; "help"; "support"; "not working"] in
    if existsb (fun keyword => Str.contains keyword message_lower) support_keywords
    then "support"
    else "general".

(** A call of [self._rule_based_classification], recorded in the trace. *)
Definition call_rule_based (message : string) : M string :=
  emit (RuleBased message);; mret (_rule_based_classification message).

(** [_wrap_prompt_with_language_hint]. *)
Definition _wrap_prompt_with_language_hint (base_prompt : string) (language : val)
  : M string :=
  if negb (truthy language) || eq_str language "en" then mret base_prompt
  else
    l ← as_str language;
    let prefix := "You MUST answer in language code '" +:+ l +:+ "'." +:+ Str.nl +:+ Str.nl in
    mret (prefix +:+ base_prompt).

(** [validate_response]. *)
Definition validate_response (st : state) : M state :=
  response ← as_str (get st "response" (VStr ""));
  let is_valid :=
    (10 <? Str.len response)%nat
    && (Str.len response <? 1000)%nat
    && negb (String.eqb (Str.strip response) "") in
  let st := <["response_valid" := VBool is_valid]> st in
  if negb is_valid then
    let st := <["response" := VStr HANDOFF_MESSAGE]> st in
    let st := <["requires_escalation" := VBool true]> st in
    mret st
  else mret st.

Section Nodes.

Context {tools : Tools}.
Context {formatter : PromptFormatter}.
(** [settings], the global [Settings] instance of app/config.py. *)
Variable settings : Settings.
(** [self.llm]: the provider, or [None] when none is configured. *)
Variable llm : option provider.
(** [str.upper], whose values leave the characters below 256 (for the
    micro sign and the y with diaeresis) and is therefore kept abstract. *)
Variable upper : string -> string.

(** [classify_message]. *)
Definition classify_message (st : state) : M state :=
  let message := get st "message" (VStr "") in
  lang ← (if agent_auto_detect_language settings
          then m ← as_str message; mret (detect_language m)
          else mret (agent_default_language settings));
  let st := <["language" := VStr lang]> st in
  let st := <["prompt_variant" := VStr (upper (agent_prompt_variant settings))]> st in
  history ← as_history (get st "conversation_history" (VHistory []));
  let context := format_context history in
  m ← as_str message;
  if detect_urgency m then
    let st := <["intent" := VStr "urgent"]> st in
    let st := <["requires_escalation" := VBool true]> st in
    mret st
  else
    match llm with
    | Some p =>
        try_except
          (response_text ← invoke p (Request CLASSIFICATION_PROMPT message (VStr context));
           if Str.contains "CLASSIFICATION:" response_text then
             intent_line ←
               index (filter (fun line => Str.contains "CLASSIFICATION:" line = true)
                             (Str.split Str.nl_char response_text)) 0;
             part ← index (Str.split ":" intent_line) 1;
             let intent := Str.lower (Str.strip part) in
             let st := <["intent" := VStr intent]> st in
             let st := <["classification_reason" := VStr response_text]> st in
             mret st
           else
             intent ← call_rule_based m;
             mret (<["intent" := VStr intent]> st))
          (fun e =>
             intent ← call_rule_based m;
             mret (<["intent" := VStr intent]> st))
    | None =>
        intent ← call_rule_based m;
        mret (<["intent" := VStr intent]> st)
    end.

(** [retrieve_context]. *)
Definition retrieve_context (st : state) : M state :=
  conversation_history ← as_history (get st "conversation_history" (VHistory []));
  mret (<["formatted_context" := VStr (format_context conversation_history)]> st).

(** The [mapping] of [_get_prompt_for_intent]. *)
Definition prompt_mapping : gmap string string :=
  list_to_map [
    ("support_A", SUPPORT_RESPONSE_PROMPT_A);
    ("support_B", SUPPORT_RESPONSE_PROMPT_B);
    ("sales_A", SALES_RESPONSE_PROMPT_A);
    ("sales_B", SALES_RESPONSE_PROMPT_B);
    ("general_A", GENERAL_RESPONSE_PROMPT_A);
    ("general_B", GENERAL_RESPONSE_PROMPT_B)
  ].

(** [_get_prompt_for_intent]. *)
Definition _get_prompt_for_intent (intent variant : string) : string :=
  let key := select_prompt_variant intent variant in
  default GENERAL_RESPONSE_PROMPT_A (prompt_mapping !! key).

(** [MOCK_RESPONSES.get(intent, MOCK_RESPONSES["general"])]. *)
Definition mock_response (intent : string) : M string :=
  general ← (match MOCK_RESPONSES !! "general" with
             | Some r => mret r
             | None => raise KeyError
             end);
  mret (default general (MOCK_RESPONSES !! intent)).

(** [generate_response]. *)
Definition generate_response (st : state) : M state :=
  let intent := get st "intent" (VStr "general") in
  let message := get st "message" (VStr "") in
  let context := get st "formatted_context" (VStr "") in
  let language := get st "language" (VStr (agent_default_language settings)) in
  let variant := get st "prompt_variant" (VStr (upper (agent_prompt_variant settings))) in
  let sentiment := get st "sentiment_score" (VFloat 0%float) in
  if eq_str intent "urgent" || truthy (get st "requires_escalation" VNone) then
    let st := <["response" := VStr ESCALATION_MESSAGE]> st in
    let st := <["requires_escalation" := VBool true]> st in
    mret st
  else
    intent ← as_str intent;
    variant ← as_str variant;
    let base_prompt_template := _get_prompt_for_intent intent variant in
    prompt_template ← _wrap_prompt_with_language_hint base_prompt_template language;
    final_text ←
      match llm with
      | Some p =>
          try_except
            (prompt ← format_prompt prompt_template message context;
             invoke p prompt)
            (fun e => mock_response intent)
      | None => mock_response intent
      end;
    sentiment ← as_float sentiment;
    let final_text := adjust_response_for_sentiment final_text sentiment in
    mret (<["response" := VStr final_text]> st).

(** [check_escalation]. *)
Definition check_escalation (st : state) : M state :=
  let intent := get st "intent" (VStr "") in
  let message := get st "message" (VStr "") in
  if eq_str intent "urgent" then
    let st := <["requires_escalation" := VBool true]> st in
    let st := <["escalation_reason" := VStr URGENT_REASON]> st in
    m ← as_str message;
    mret (<["sentiment_score" := VFloat (extract_sentiment_indicators m)]> st)
  else
    m ← as_str message;
    let sentiment := extract_sentiment_indicators m in
    let st := <["sentiment_score" := VFloat sentiment]> st in
    if PrimFloat.leb sentiment NEGATIVE_THRESHOLD then
      let st := <["requires_escalation" := VBool true]> st in
      let st := <["escalation_reason" := VStr NEGATIVE_REASON]> st in
      mret st
    else
      mret (<["requires_escalation" := get st "requires_escalation" (VBool false)]> st).

(** *** The nodes by name *)

Inductive stage :=
| Classify
| Retrieve
| Generate
| CheckEscalation
| Validate.

Definition run_stage (s : stage) (st : state) : M state :=
  match s with
  | Classify => classify_message st
  | Retrieve => retrieve_context st
  | Generate => generate_response st
  | CheckEscalation => check_escalation st
  | Validate => validate_response st
  end.

(** Modelled from the spec: the orchestrator that walks the nodes
    (app/agent/graph.py) is not among the sources.  A run applies the nodes
    of a list one after the other to the state, and stops at the first one
    that raises. *)
Fixpoint run_stages (ss : list stage) (st : state) : M state :=
  match ss with
  | [] => mret st
  | s :: ss' => st' ← run_stage s st; run_stages ss' st'
  end.

(** Modelled from the spec: the order of the walk, which the missing
    orchestrator fixes.  Section 4.6 of the spec gives it as Received,
    Classified, ContextReady, Generated, EscalationChecked, Validated,
    Done. *)
Definition generate_first : list stage :=
  [Classify; Retrieve; Generate; CheckEscalation; Validate].

(** Modelled from the spec: the order of the walk as section 2 of the spec
    gives it, with the escalation gate before the generator. *)
Definition gate_first : list stage :=
  [Classify; Retrieve; CheckEscalation; Generate; Validate].

(** Modelled from the spec: the state a run starts from, which the missing
    caller builds from the message and its history. *)
Definition initial_state (message : string) (history : list history_entry) : state :=
  <["message" := VStr message]> (<["conversation_history" := VHistory history]> ∅).

End Nodes.

(** ** A sample implementation of the helpers

    app/agent/tools.py is not among the sources.  Section 4.1 and section
    4.4 of the spec describe the helpers, and tests/unit/test_agent_tools.py
    fixes some of their values; the marker and lexicon tables below are a
    sample of the configurable ones.  The sample serves to run the nodes on
    concrete inputs; the properties of the nodes hold for any helpers. *)
Module Sample.

Definition any_in (words : list string) (text : string) : bool :=
  existsb (fun w => Str.contains w text) words.

Definition count_in (words : list string) (text : string) : nat :=
  length (filter (fun w => Str.contains w text = true) words).

(** Modelled from the spec: [detect_urgency] of app/agent/tools.py.  An
    urgency marker is an anger word, a mention of legal action or of a
    payment failure, or two exclamation marks in a row; case-insensitive. *)
Definition detect_urgency (text : string) : bool :=
  let t := Str.lower text in
  any_in ["ridiculous"; "unacceptable"; "immediately"; "asap"; "outrageous";
          "lawyer"; "legal action"; "lawsuit";
          "charged twice"; "payment failed"] t
  || Str.contains "!!" t.

Definition float_of_nat (n : nat) : float :=
  Nat.iter n (fun x => (x + 1)%float) 0%float.

(** Modelled from the spec: [extract_sentiment_indicators] of
    app/agent/tools.py.  The signed count of lexicon terms, normalized into
    [-1, 1]; [0.0] when no term matches. *)
Definition extract_sentiment_indicators (text : string) : float :=
  let t := Str.lower text in
  let p := count_in ["thank"; "great"; "love"; "excellent"; "awesome"] t in
  let n := count_in ["terrible"; "unacceptable"; "ridiculous"; "awful"; "worst"] t in
  match (p + n)%nat with
  | O => 0%float
  | S _ => ((float_of_nat p - float_of_nat n) / (float_of_nat p + float_of_nat n))%float
  end.

Definition upper_char (c : ascii) : ascii :=
  let n := Ascii.nat_of_ascii c in
  if ((97 <=? n) && (n <=? 122))%nat then Ascii.ascii_of_nat (n - 32)%nat else c.

(** [str.upper] on the letters a-z. *)
Fixpoint upper (s : string) : string :=
  match s with
  | "" => ""
  | String c s' => String (upper_char c) (upper s')
  end.

Fixpoint join (sep : string) (l : list string) : string :=
  match l with
  | [] => ""
  | [x] => x
  | x :: l' => x +:+ sep +:+ join sep l'
  end.

(** Modelled from the spec: [format_context] of app/agent/tools.py.  One
    line per entry, the sender in capitals; a fixed sentence for an empty
    history. *)
Definition format_context (history : list history_entry) : string :=
  match history with
  | [] => "No previous context."
  | _ => join Str.nl
           (map (fun e => upper (sender_type e) +:+ ": " +:+ content e) history)
  end.

(** Modelled from the spec: [detect_language] of app/agent/tools.py.  A
    stop-word heuristic, English when nothing matches. *)
Definition detect_language (text : string) : string :=
  let t := Str.lower text in
  if any_in ["hola"; "gracias"] t then "es"
  else if any_in ["bonjour"; "merci"] t then "fr"
  else "en".

(** Modelled from the spec: [select_prompt_variant] of app/agent/tools.py.
    The key is the intent, an underscore and the variant; an unknown
    combination falls back to [general_A]. *)
Definition select_prompt_variant (intent variant : string) : string :=
  if existsb (String.eqb intent) ["support"; "sales"; "general"]
     && existsb (String.eqb variant) ["A"; "B"]
  then intent +:+ "_" +:+ variant
  else "general_A".

(** Modelled from the spec: [adjust_response_for_sentiment] of
    app/agent/tools.py.  An acknowledgment before the text for strongly
    negative sentiment, no change otherwise. *)
Definition adjust_response_for_sentiment (text : string) (sentiment : float) : string :=
  if PrimFloat.leb sentiment (-0.5)%float
  then "I'm really sorry for the trouble. " +:+ text
  else text.

(** A sample of the prompt formatter, which belongs to langchain and is not
    among the sources.  [template_fields] reads a template as
    [string.Formatter().parse] does when the fields are plain names: two
    braces of a kind in a row stand for one brace of the text, an opening
    brace starts a field and the next closing brace ends it; a closing brace
    on its own, an opening brace inside a field and a field left open raise
    the [ValueError] of the parser, here [TemplateError]. *)
Fixpoint template_fields (field : option string) (s : string)
  : result (list string) :=
  match s with
  | "" => match field with None => Ok [] | Some _ => Raise TemplateError end
  | String c rest =>
      match field with
      | None =>
          if Ascii.eqb c "{" then
            match rest with
            | String "{" rest' => template_fields None rest'
            | _ => template_fields (Some "") rest
            end
          else if Ascii.eqb c "}" then
            match rest with
            | String "}" rest' => template_fields None rest'
            | _ => Raise TemplateError
            end
          else template_fields None rest
      | Some name =>
          if Ascii.eqb c "}" then
            match template_fields None rest with
            | Ok names => Ok (name :: names)
            | Raise e => Raise e
            end
          else if Ascii.eqb c "{" then Raise TemplateError
          else template_fields (Some (name +:+ String c "")) rest
      end
  end.

(** Formatting with the keywords [message] and [context]: [KeyError] for a
    field of another name. *)
Definition format_messages (template : string) (message context : val)
  : result unit :=
  match template_fields None template with
  | Ok names =>
      if forallb (fun name => String.eqb name "message" || String.eqb name "context")
                 names
      then Ok tt
      else Raise KeyError
  | Raise e => Raise e
  end.

End Sample.

Definition sample_formatter : PromptFormatter := {|
  format_messages := Sample.format_messages
|}.

Definition sample_tools : Tools := {|
  detect_urgency := Sample.detect_urgency;
  extract_sentiment_indicators := Sample.extract_sentiment_indicators;
  format_context := Sample.format_context;
  detect_language := Sample.detect_language;
  select_prompt_variant := Sample.select_prompt_variant;
  adjust_response_for_sentiment := Sample.adjust_response_for_sentiment
|}.

(** ** The data model of the state

    A state fits the data model when the keys the helpers read hold values
    of their kind, or are absent. *)
Definition holds_str (st : state) (k : string) : bool :=
  match st !! k with
  | None | Some (VStr _) => true
  | Some _ => false
  end.

Definition holds_float (st : state) (k : string) : bool :=
  match st !! k with
  | None | Some (VFloat _) => true
  | Some _ => false
  end.

Definition holds_history (st : state) (k : string) : bool :=
  match st !! k with
  | None | Some (VHistory _) => true
  | Some _ => false
  end.

Definition in_model (st : state) : bool :=
  holds_str st "message"
  && holds_history st "conversation_history"
  && holds_str st "intent"
  && holds_str st "language"
  && holds_str st "prompt_variant"
  && holds_float st "sentiment_score"
  && holds_str st "response".

(** ** Names for parts of the nodes *)

(** The language [classify_message] records. *)
Definition classified_language {tools : Tools} (settings : Settings) (m : string)
  : string :=
  if agent_auto_detect_language settings then detect_language m
  else agent_default_language settings.

(** What [classify_message] writes before it looks at the intent. *)
Definition with_language {tools : Tools} (settings : Settings)
    (upper : string -> string) (m : string) (st : state) : state :=
  <["prompt_variant" := VStr (upper (agent_prompt_variant settings))]>
    (<["language" := VStr (classified_language settings m)]> st).

(** The test [intent == "urgent" or state.get("requires_escalation")] of
    [generate_response]. *)
Definition escalated (st : state) : bool :=
  eq_str (get st "intent" (VStr "general")) "urgent"
  || truthy (get st "requires_escalation" VNone).

(** The template [_wrap_prompt_with_language_hint] returns for a language
    that is a string. *)
Definition hinted_template (base_prompt language : string) : string :=
  if String.eqb language "" || String.eqb language "en" then base_prompt
  else ("You MUST answer in language code '" +:+ language +:+ "'."
        +:+ Str.nl +:+ Str.nl) +:+ base_prompt.

(** The text of [MOCK_RESPONSES.get(intent, MOCK_RESPONSES["general"])]. *)
Definition mock_text (intent : string) : string :=
  default (default "" (MOCK_RESPONSES !! "general")) (MOCK_RESPONSES !! intent).

(** The text the provider, or the mock table when there is no provider or
    it fails, gives for a request. *)
Definition reply_text {formatter : PromptFormatter} (llm : option provider)
    (intent : string) (r : request) : string :=
  match llm with
  | Some p =>
      match format_messages (req_template r) (req_message r) (req_context r)
      with
      | Ok _ => match p r with Ok text => text | Raise _ => mock_text intent end
      | Raise _ => mock_text intent
      end
  | None => mock_text intent
  end.

(** The calls of [generate_response] on the generation branch: one when a
    provider is configured and the template formats, none otherwise. *)
Definition reply_calls {formatter : PromptFormatter} (llm : option provider)
    (r : request) : list event :=
  match llm with
  | Some _ =>
      match format_messages (req_template r) (req_message r) (req_context r)
      with
      | Ok _ => [LLMInvoke r]
      | Raise _ => []
      end
  | None => []
  end.

(** The acceptance test of [validate_response]. *)
Definition is_valid (response : string) : bool :=
  (10 <? Str.len response)%nat
  && (Str.len response <? 1000)%nat
  && negb (String.eqb (Str.strip response) "").

(** ** Inputs of the tests and of the scenarios *)

Definition RIDICULOUS_MESSAGE : string :=
  "This is ridiculous!!! I've been charged twice!".

Definition PRICING_MESSAGE : string :=
  "What's the pricing for your enterprise plan?".

Definition SALES_MOCK_RESPONSE : string :=
  "Thank you for your interest in our enterprise plan! For 50 users, our pricing starts at $X per month. I'd be happy to schedule a demo to show you all the features. Would that work for you?".

(** [state_urgent] of test_check_escalation. *)
Definition state_urgent : state :=
  <["message" := VStr "This is terrible!"]> (<["intent" := VStr "urgent"]> ∅).

(** [state_invalid] of test_validate_response. *)
Definition state_invalid : state :=
  <["response" := VStr "Hi"]> ∅.

(** An escalated conversation whose next message is a plain question. *)
Definition state_flagged : state :=
  <["requires_escalation" := VBool true]>
    (<["message" := VStr "I have a question"]> (<["intent" := VStr "general"]> ∅)).

(** [state_invalid] after [validate_response] has rejected it. *)
Definition state_rejected : state :=
  <["requires_escalation" := VBool true]>
    (<["response" := VStr HANDOFF_MESSAGE]>
       (<["response_valid" := VBool false]> state_invalid)).

(** A general question classified as Spanish. *)
Definition spanish_state : state :=
  <["language" := VStr "es"]>
    (<["intent" := VStr "general"]> (<["message" := VStr "Hola"]> ∅)).

(** A deployment whose default language is French, detection off. *)
Definition french_settings : Settings := {|
  agent_prompt_variant := "A";
  agent_default_language := "fr";
  agent_auto_detect_language := false
|}.



(** A state classified without a language: the key is absent. *)
Definition no_language_state : state :=
  <["intent" := VStr "general"]> (<["message" := VStr "Bonjour"]> ∅).

(** A provider that answers every request with the same text. *)
Definition constant_provider (text : string) : provider := fun _ => Ok text.

(** A provider that fails on every request. *)
Definition failing_provider : provider := fun _ => Raise (ProviderError "timeout").

(** A reply in the expected format whose category is none of the four. *)
Definition BILLING_REPLY : string :=
  "CLASSIFICATION: BILLING" +:+ Str.nl +:+ "REASON: The customer asks about an invoice.".


(** ** The LLM clients (AgentNodes._initialize_llm, app/integrations/llm_router.py)

    A client is the class that was instantiated and the arguments its
    constructor received. *)

(** The options of [Settings] (app/config.py) the constructors read. *)
Record LLMSettings := {
  llm_provider : string;
  openai_api_key : option string;
  anthropic_api_key : option string;
  openrouter_api_key : option string;
  openrouter_model : string;
  agent_temperature : float;
  agent_max_tokens : Z
}.

(** The values of app/config.py when the environment sets none
    ([0.7] is the nearest double). *)
Definition default_llm_settings : LLMSettings := {|
  llm_provider := "mock";
  openai_api_key := None;
  anthropic_api_key := None;
  openrouter_api_key := None;
  openrouter_model := "anthropic/claude-3-haiku";
  agent_temperature := 0x1.6666666666666p-1%float;
  agent_max_tokens := 500
|}.

Inductive client_class :=
| ChatOpenAI
| ChatAnthropic
| ChatOpenRouter.

Record client := Client {
  client_class_of : client_class;
  client_api_key : string;
  client_model : string;
  client_temperature : float;
  client_max_tokens : Z;
  client_base_url : option string;
  client_kwargs : list (string * string)
}.

(** The truth value of an [Optional[str]]: set, and not empty. *)
Definition is_set (o : option string) : bool :=
  match o with
  | Some s => negb (String.eqb s "")
  | None => false
  end.

(** [o or d] for an [Optional[str]]. *)
Definition str_or (o : option string) (d : string) : string :=
  match o with
  | Some s => if String.eqb s "" then d else s
  | None => d
  end.

(** [AgentNodes._initialize_llm]. *)
Definition _initialize_llm (settings : LLMSettings) : option client :=
  if String.eqb (llm_provider settings) "openai" && is_set (openai_api_key settings)
  then Some (Client ChatOpenAI (str_or (openai_api_key settings) "")
                    "gpt-3.5-turbo"
                    (agent_temperature settings) (agent_max_tokens settings)
                    None [])
  else if String.eqb (llm_provider settings) "anthropic"
          && is_set (anthropic_api_key settings)
  then Some (Client ChatAnthropic (str_or (anthropic_api_key settings) "")
                    "claude-3-haiku-20240307"
                    (agent_temperature settings) (agent_max_tokens settings)
                    None [])
  else None.

(** The keyword arguments of the router's functions: the three they name,
    and the others, which go to the constructor as they are. *)
Record llm_kwargs := {
  model_name : option string;
  temperature : option float;
  max_tokens : option Z;
  other_kwargs : list (string * string)
}.

Definition no_kwargs : llm_kwargs := {|
  model_name := None;
  temperature := None;
  max_tokens := None;
  other_kwargs := []
|}.

(** What the imports at the top of llm_router.py left: [ChatOpenAI] and
    [ChatAnthropic] are [None] when their package is not installed. *)
Record imports := {
  has_ChatOpenAI : bool;
  has_ChatAnthropic : bool
}.

Inductive router_error :=
| ImportError (msg : string)
| ValueError (msg : string).

(** [get_openrouter_llm]. *)
Definition get_openrouter_llm (env : imports) (settings : LLMSettings)
    (kw : llm_kwargs) : router_error + client :=
  if negb (has_ChatOpenAI env) then
    inl (ImportError "langchain_openai is required for OpenRouter. Install with: pip install langchain-openai")
  else if negb (is_set (openrouter_api_key settings)) then
    inl (ValueError "OPENROUTER_API_KEY not set in environment or settings")
  else
    let model_name := str_or (model_name kw) (openrouter_model settings) in
    let temperature := default (agent_temperature settings) (temperature kw) in
    let max_tokens := default (agent_max_tokens settings) (max_tokens kw) in
    inr (Client ChatOpenRouter (str_or (openrouter_api_key settings) "")
                model_name temperature max_tokens
                (Some "https://openrouter.ai/api/v1") (other_kwargs kw)).

(** [get_chatgpt_llm]. *)
Definition get_chatgpt_llm (env : imports) (settings : LLMSettings)
    (kw : llm_kwargs) : router_error + client :=
  if negb (has_ChatOpenAI env) then
    inl (ImportError "langchain_openai is required for ChatGPT. Install with: pip install langchain-openai")
  else if negb (is_set (openai_api_key settings)) then
    inl (ValueError "OPENAI_API_KEY not set in environment or settings")
  else
    let model_name := str_or (model_name kw) "gpt-3.5-turbo" in
    let temperature := default (agent_temperature settings) (temperature kw) in
    let max_tokens := default (agent_max_tokens settings) (max_tokens kw) in
    inr (Client ChatOpenAI (str_or (openai_api_key settings) "")
                model_name temperature max_tokens None (other_kwargs kw)).

(** [get_claude_llm]. *)
Definition get_claude_llm (env : imports) (settings : LLMSettings)
    (kw : llm_kwargs) : router_error + client :=
  if negb (has_ChatAnthropic env) then
    inl (ImportError "langchain_anthropic is required for Claude. Install with: pip install langchain-anthropic")
  else if negb (is_set (anthropic_api_key settings)) then
    inl (ValueError "ANTHROPIC_API_KEY not set in environment or settings")
  else
    let model_name := str_or (model_name kw) "claude-3-haiku-20240307" in
    let temperature := default (agent_temperature settings) (temperature kw) in
    let max_tokens := default (agent_max_tokens settings) (max_tokens kw) in
    inr (Client ChatAnthropic (str_or (anthropic_api_key settings) "")
                model_name temperature max_tokens None (other_kwargs kw)).

(** [x in (a, b, ...)] for strings. *)
Definition str_in (x : string) (l : list string) : bool :=
  existsb (String.eqb x) l.

(** The [return] of a constructor function's result in [get_llm]: the
    client, or the error raised. *)
Definition returned (r : router_error + client) : router_error + option client :=
  match r with
  | inl e => inl e
  | inr c => inr (Some c)
  end.

(** [get_llm]: a client, [None] for the mock provider, or an error. *)
Definition get_llm (env : imports) (settings : LLMSettings)
    (provider_name : option string) (kw : llm_kwargs)
  : router_error + option client :=
  let provider_name := str_or provider_name (llm_provider settings) in
  let provider_name := Str.strip (Str.lower provider_name) in
  if str_in provider_name ["openrouter"; "open_router"] then
    returned (get_openrouter_llm env settings kw)
  else if str_in provider_name ["openai"; "chatgpt"; "gpt"] then
    returned (get_chatgpt_llm env settings kw)
  else if str_in provider_name ["anthropic"; "claude"] then
    returned (get_claude_llm env settings kw)
  else if String.eqb provider_name "mock" then
    inr None
  else
    inl (ValueError ("Invalid LLM provider: " +:+ provider_name +:+ ". "
                     +:+ "Valid options: openrouter, openai, chatgpt, anthropic, claude, mock")).

(** The module's two globals. *)
Record llm_cache := {
  _llm_instance : option client;
  _llm_provider : option string
}.

(** The globals when the module is loaded. *)
Definition empty_llm_cache : llm_cache := {|
  _llm_instance := None;
  _llm_provider := None
|}.

(** [get_llm_cached]: what it returns or raises, and the globals after. *)
Definition get_llm_cached (env : imports) (settings : LLMSettings)
    (provider_name : option string) (kw : llm_kwargs) (cache : llm_cache)
  : (router_error + option client) * llm_cache :=
  let current_provider := str_or provider_name (llm_provider settings) in
  match _llm_instance cache with
  | Some instance =>
      if bool_decide (_llm_provider cache = Some current_provider)
      then (inr (Some instance), cache)
      else
        match get_llm env settings provider_name kw with
        | inr instance' =>
            (inr instance',
             {| _llm_instance := instance'; _llm_provider := Some current_provider |})
        | inl e => (inl e, cache)
        end
  | None =>
      match get_llm env settings provider_name kw with
      | inr instance' =>
          (inr instance',
           {| _llm_instance := instance'; _llm_provider := Some current_provider |})
      | inl e => (inl e, cache)
      end
  end.

(** [reset_llm_cache]. *)
Definition reset_llm_cache (cache : llm_cache) : llm_cache := empty_llm_cache.

(** The class a provider name stands for in [get_llm], once lowered and
    trimmed. *)
Definition class_of_name (name : string) : option client_class :=
  if str_in name ["openrouter"; "open_router"] then Some ChatOpenRouter
  else if str_in name ["openai"; "chatgpt"; "gpt"] then Some ChatOpenAI
  else if str_in name ["anthropic"; "claude"] then Some ChatAnthropic
  else None.

(** The API key of the settings a class is built with, and whether the
    class was imported. *)
Definition key_for (settings : LLMSettings) (cls : client_class) : option string :=
  match cls with
  | ChatOpenAI => openai_api_key settings
  | ChatAnthropic => anthropic_api_key settings
  | ChatOpenRouter => openrouter_api_key settings
  end.

Definition imported (env : imports) (cls : client_class) : bool :=
  match cls with
  | ChatOpenAI | ChatOpenRouter => has_ChatOpenAI env
  | ChatAnthropic => has_ChatAnthropic env
  end.

(** The names [get_llm] knows. *)
Definition known_names : list string :=
  ["openrouter"; "open_router"; "openai"; "chatgpt"; "gpt"; "anthropic";
   "claude"; "mock"].

(** One use of the cache: a call of [get_llm_cached], by its arguments and
    the settings and imports at the time of the call, or a call of
    [reset_llm_cache]. *)
Inductive cache_use :=
| CallCached (env : imports) (settings : LLMSettings)
             (provider_name : option string) (kw : llm_kwargs)
| CallReset.

(** The globals after a sequence of uses. *)
Fixpoint after_uses (uses : list cache_use) (cache : llm_cache) : llm_cache :=
  match uses with
  | [] => cache
  | CallCached env settings provider_name kw :: uses' =>
      after_uses uses' (get_llm_cached env settings provider_name kw cache).2
  | CallReset :: uses' => after_uses uses' (reset_llm_cache cache)
  end.

(** The cached client is of the class its recorded provider name stands
    for. *)
Definition cache_consistent (cache : llm_cache) : Prop :=
  ∀ instance, _llm_instance cache = Some instance →
    ∃ name, _llm_provider cache = Some name
      ∧ class_of_name (Str.strip (Str.lower name))
        = Some (client_class_of instance).

(** The provider calls in a trace. *)
Definition llm_calls (t : list event) : list request :=
  omap (fun ev => match ev with LLMInvoke r => Some r | RuleBased _ => None end) t.

(** The character [c] occurs in [s]. *)
Fixpoint has_char (c : ascii) (s : string) : bool :=
  match s with
  | "" => false
  | String a s' => Ascii.eqb a c || has_char c s'
  end.

(** The keys a node assigns. *)
Definition node_writes (s : stage) : list string :=
  match s with
  | Classify =>
      ["language"; "prompt_variant"; "intent"; "requires_escalation";
       "classification_reason"]
  | Retrieve => ["formatted_context"]
  | Generate => ["response"; "requires_escalation"]
  | CheckEscalation => ["requires_escalation"; "escalation_reason"; "sentiment_score"]
  | Validate => ["response_valid"; "response"; "requires_escalation"]
  end.

(** The flag a state carries: [requires_escalation] is absent or a boolean. *)
Definition holds_bool (st : state) (k : string) : bool :=
  match st !! k with
  | None | Some (VBool _) => true
  | Some _ => false
  end.
(** The constructor function [get_llm] calls for a class. *)
Definition construct (cls : client_class) (env : imports) (settings : LLMSettings)
    (kw : llm_kwargs) : router_error + client :=
  match cls with
  | ChatOpenRouter => get_openrouter_llm env settings kw
  | ChatOpenAI => get_chatgpt_llm env settings kw
  | ChatAnthropic => get_claude_llm env settings kw
  end.

(** The name [get_llm] routes on. *)
Definition routed_name (settings : LLMSettings) (provider_name : option string)
  : string :=
  Str.strip (Str.lower (str_or provider_name (llm_provider settings))).

(** ** Further inputs *)

(** The sample helpers with a selector that composes the key and leaves
    the fallback to [_get_prompt_for_intent]. *)
Definition composing_tools : Tools := {|
  detect_urgency := Sample.detect_urgency;
  extract_sentiment_indicators := Sample.extract_sentiment_indicators;
  format_context := Sample.format_context;
  detect_language := Sample.detect_language;
  select_prompt_variant := fun intent variant => intent +:+ "_" +:+ variant;
  adjust_response_for_sentiment := Sample.adjust_response_for_sentiment
|}.

(** Both packages installed. *)
Definition full_imports : imports := {|
  has_ChatOpenAI := true;
  has_ChatAnthropic := true
|}.

(** Settings for OpenAI, with a key. *)
Definition openai_settings : LLMSettings := {|
  llm_provider := "openai";
  openai_api_key := Some "sk-test";
  anthropic_api_key := None;
  openrouter_api_key := None;
  openrouter_model := "anthropic/claude-3-haiku";
  agent_temperature := 0x1.6666666666666p-1%float;
  agent_max_tokens := 500
|}.

(** The same under the name the router also accepts for OpenAI. *)
Definition chatgpt_settings : LLMSettings := {|
  llm_provider := "chatgpt";
  openai_api_key := Some "sk-test";
  anthropic_api_key := None;
  openrouter_api_key := None;
  openrouter_model := "anthropic/claude-3-haiku";
  agent_temperature := 0x1.6666666666666p-1%float;
  agent_max_tokens := 500
|}.

(** The client of [openai_settings]. *)
Definition openai_client : client :=
  Client ChatOpenAI "sk-test" "gpt-3.5-turbo" 0x1.6666666666666p-1%float 500 None [].

(** A call with a temperature and a token limit of zero. *)
Definition zero_kwargs : llm_kwargs := {|
  model_name := Some "gpt-4";
  temperature := Some 0%float;
  max_tokens := Some 0%Z;
  other_kwargs := [("timeout", "30")]
|}.

(** The globals with [openai_client] cached. *)
Definition openai_cache : llm_cache := {|
  _llm_instance := Some openai_client;
  _llm_provider := Some "openai"
|}.

(** The request [classify_message] makes for the message "Hello there"
    without history, under the sample helpers. *)
Definition hello_request : request :=
  Request CLASSIFICATION_PROMPT (VStr "Hello there") (VStr "No previous context.").

(** * Properties of the nodes *)

(** ** Reading the state *)

Lemma get_insert_eq (st : state) k v d : get (<[k:=v]> st) k d = v.
Proof. unfold get. by rewrite lookup_insert_eq. Qed.

Lemma get_insert_ne (st : state) k k' v d :
  k ≠ k' → get (<[k:=v]> st) k' d = get st k' d.
Proof. intros Hne. unfold get. by rewrite lookup_insert_ne. Qed.

Lemma get_lookup (st : state) k v d : st !! k = Some v → get st k d = v.
Proof. intros H. unfold get. by rewrite H. Qed.

Lemma get_absent (st : state) k d : st !! k = None → get st k d = d.
Proof. intros H. unfold get. by rewrite H. Qed.

Lemma holds_str_get st k d :
  holds_str st k = true → ∃ s, get st k (VStr d) = VStr s.
Proof.
  unfold holds_str, get. destruct (st !! k) as [[]|]; simpl; eauto; discriminate.
Qed.

Lemma holds_float_get st k d :
  holds_float st k = true → ∃ f, get st k (VFloat d) = VFloat f.
Proof.
  unfold holds_float, get. destruct (st !! k) as [[]|]; simpl; eauto; discriminate.
Qed.

Lemma holds_history_get st k d :
  holds_history st k = true → ∃ h, get st k (VHistory d) = VHistory h.
Proof.
  unfold holds_history, get.
  destruct (st !! k) as [[]|]; simpl; eauto; discriminate.
Qed.

Lemma in_model_parts st :
  in_model st = true →
  holds_str st "message" = true
  ∧ holds_history st "conversation_history" = true
  ∧ holds_str st "intent" = true
  ∧ holds_str st "language" = true
  ∧ holds_str st "prompt_variant" = true
  ∧ holds_float st "sentiment_score" = true
  ∧ holds_str st "response" = true.
Proof. unfold in_model. rewrite !andb_true_iff. tauto. Qed.

Lemma eq_str_true v s : eq_str v s = true ↔ v = VStr s.
Proof.
  destruct v; simpl; try (split; [done|congruence]).
  rewrite String.eqb_eq. split; congruence.
Qed.

Lemma eq_str_get_true (st : state) k d s :
  d ≠ s → eq_str (get st k (VStr d)) s = true → st !! k = Some (VStr s).
Proof.
  intros Hd H. apply eq_str_true in H. unfold get in H.
  destruct (st !! k); simpl in H; congruence.
Qed.

(** ** Sequencing *)

Lemma M_eta {A} (m : M A) : MkM (trace m) (outcome m) = m.
Proof. by destruct m. Qed.

Lemma bind_ret {A B} (a : A) (k : A → M B) : (mret a ≫= k) = k a.
Proof. unfold mbind, M_bind, mret, M_ret. simpl. apply M_eta. Qed.

Lemma bind_raise {A B} (e : exn) (k : A → M B) : (raise e ≫= k) = raise e.
Proof. reflexivity. Qed.

Lemma bind_ok {A B} (t : list event) (a : A) (k : A → M B) :
  (MkM t (Ok a) ≫= k) = MkM (t ++ trace (k a)) (outcome (k a)).
Proof. reflexivity. Qed.

Lemma bind_fail {A B} (t : list event) (e : exn) (k : A → M B) :
  (MkM t (Raise e) ≫= k) = MkM t (Raise e).
Proof. reflexivity. Qed.

Lemma try_except_ok {A} (t : list event) (a : A) (h : exn → M A) :
  try_except (MkM t (Ok a)) h = MkM t (Ok a).
Proof. reflexivity. Qed.

Lemma try_except_raise {A} (t : list event) (e : exn) (h : exn → M A) :
  try_except (MkM t (Raise e)) h = MkM (t ++ trace (h e)) (outcome (h e)).
Proof. reflexivity. Qed.

Ltac m_simpl :=
  repeat first
    [ rewrite get_insert_eq
    | rewrite get_insert_ne by done
    | rewrite bind_ret
    | rewrite bind_raise
    | rewrite bind_ok
    | rewrite bind_fail
    | rewrite try_except_ok
    | rewrite try_except_raise
    | progress cbn [as_str as_float as_history trace outcome app] ].

(** ** Strings *)


Lemma lstrip_all_space (s : string) :
  Str.all_space s = true → Str.lstrip s = "".
Proof.
  induction s as [|c s IH]; simpl; [done|].
  destruct (Str.is_space c); simpl; [exact IH|done].
Qed.

Lemma lstrip_keeps_ink (s : string) :
  Str.all_space s = false → Str.all_space (Str.lstrip s) = false.
Proof.
  induction s as [|c s IH]; simpl; [done|].
  destruct (Str.is_space c) eqn:E; simpl; [exact IH|by rewrite E].
Qed.

Lemma rstrip_empty_iff (s : string) :
  Str.rstrip s = "" ↔ Str.all_space s = true.
Proof.
  induction s as [|c s IH]; simpl; [done|].
  destruct (Str.rstrip s) as [|c' r].
  - destruct (Str.is_space c); simpl; [tauto|].
    split; [done|discriminate].
  - split; [done|]. intros H. apply andb_true_iff in H as [_ H].
    apply IH in H. discriminate.
Qed.

(** The trimmed text is empty exactly when every character is white space. *)
Lemma strip_empty_iff (s : string) :
  Str.strip s = "" ↔ Str.all_space s = true.
Proof.
  unfold Str.strip. rewrite rstrip_empty_iff.
  destruct (Str.all_space s) eqn:E.
  - by rewrite (lstrip_all_space s E).
  - by rewrite (lstrip_keeps_ink s E).
Qed.

(** ** classify_message *)

Section Classify.

Context {tools : Tools}.
Variable settings : Settings.
Variable llm : option provider.
Variable upper : string -> string.

(** What [classify_message] does up to the urgency test. *)
Lemma classify_message_prefix (st : state) (m : string) (h : list history_entry) :
  get st "message" (VStr "") = VStr m →
  get st "conversation_history" (VHistory []) = VHistory h →
  classify_message settings llm upper st
  = (let st := with_language settings upper m st in
     if detect_urgency m then
       mret (<["requires_escalation" := VBool true]>
               (<["intent" := VStr "urgent"]> st))
     else
       match llm with
       | Some p =>
           try_except
             (response_text ←
                invoke p (Request CLASSIFICATION_PROMPT (VStr m)
                                  (VStr (format_context h)));
              if Str.contains "CLASSIFICATION:" response_text then
                intent_line ←
                  index (filter (fun line => Str.contains "CLASSIFICATION:" line = true)
                                (Str.split Str.nl_char response_text)) 0;
                part ← index (Str.split ":" intent_line) 1;
                mret (<["classification_reason" := VStr response_text]>
                        (<["intent" := VStr (Str.lower (Str.strip part))]> st))
              else
                intent ← call_rule_based m;
                mret (<["intent" := VStr intent]> st))
             (fun e =>
                intent ← call_rule_based m;
                mret (<["intent" := VStr intent]> st))
       | None =>
           intent ← call_rule_based m;
           mret (<["intent" := VStr intent]> st)
       end).
Proof.
  intros Hm Hg.
  unfold classify_message, with_language, classified_language. rewrite Hm.
  destruct (agent_auto_detect_language settings); m_simpl;
    rewrite Hg; by m_simpl.
Qed.

(** The urgency short-circuit. *)
Lemma classify_message_urgent_eq (st : state) (m : string) :
  get st "message" (VStr "") = VStr m →
  holds_history st "conversation_history" = true →
  detect_urgency m = true →
  classify_message settings llm upper st
  = MkM [] (Ok (<["requires_escalation" := VBool true]>
                  (<["intent" := VStr "urgent"]>
                     (with_language settings upper m st)))).
Proof.
  intros Hm Hh Hu.
  destruct (holds_history_get st "conversation_history" [] Hh) as [h Hg].
  rewrite (classify_message_prefix st m h Hm Hg).
  cbn zeta. by rewrite Hu.
Qed.

(** [classify_message] returns on every state of the data model, whatever
    the provider answers or raises; the state it returns is one of three. *)
Lemma classify_message_cases (st : state) (m : string) :
  get st "message" (VStr "") = VStr m →
  holds_history st "conversation_history" = true →
  ∃ st', outcome (classify_message settings llm upper st) = Ok st'
    ∧ ((detect_urgency m = true
        ∧ st' = <["requires_escalation" := VBool true]>
                  (<["intent" := VStr "urgent"]>
                     (with_language settings upper m st)))
       ∨ (detect_urgency m = false
          ∧ st' = <["intent" := VStr (_rule_based_classification m)]>
                    (with_language settings upper m st))
       ∨ (detect_urgency m = false
          ∧ ∃ text intent,
              st' = <["classification_reason" := VStr text]>
                      (<["intent" := VStr intent]>
                         (with_language settings upper m st)))).
Proof.
  intros Hm Hh.
  destruct (holds_history_get st "conversation_history" [] Hh) as [h Hg].
  rewrite (classify_message_prefix st m h Hm Hg). cbn zeta.
  destruct (detect_urgency m) eqn:Hu; [eexists; split; [reflexivity|]; by left|].
  destruct llm as [p|]; [|eexists; split; [reflexivity|]; right; by left].
  unfold invoke, call_rule_based, emit.
  match goal with
  | |- context [MkM [LLMInvoke ?r] ?o] => destruct o as [text|e]
  end; m_simpl; [|eexists; split; [reflexivity|]; right; by left].
  destruct (Str.contains "CLASSIFICATION:" text); m_simpl;
    [|eexists; split; [reflexivity|]; right; by left].
  unfold index.
  match goal with |- context [?l !! 0] => destruct (l !! 0) as [line|] end;
    m_simpl; [|eexists; split; [reflexivity|]; right; by left].
  match goal with |- context [?l !! 1] => destruct (l !! 1) as [part|] end;
    m_simpl; [|eexists; split; [reflexivity|]; right; by left].
  eexists; split; [reflexivity|]; right; right; split; [done|]; eauto.
Qed.

(** Without a provider the intent is the rule-based one. *)
Lemma classify_message_rule_based_eq (st : state) (m : string) :
  get st "message" (VStr "") = VStr m →
  holds_history st "conversation_history" = true →
  detect_urgency m = false →
  classify_message settings None upper st
  = MkM [RuleBased m]
        (Ok (<["intent" := VStr (_rule_based_classification m)]>
               (with_language settings upper m st))).
Proof.
  intros Hm Hh Hu.
  destruct (holds_history_get st "conversation_history" [] Hh) as [h Hg].
  unfold classify_message, with_language, classified_language. rewrite Hm.
  destruct (agent_auto_detect_language settings); m_simpl;
    rewrite Hg; m_simpl; rewrite Hu; unfold call_rule_based, emit; by m_simpl.
Qed.

(** C1.  When [detect_urgency] holds of the message, [classify_message]
    returns with [intent] set to ["urgent"] and [requires_escalation] set to
    [True], and its trace is empty: it called neither the provider nor the
    rule-based classifier, whether or not a provider is configured. *)
Theorem classify_message_urgent_short_circuit (st : state) (m : string) :
  get st "message" (VStr "") = VStr m →
  holds_history st "conversation_history" = true →
  detect_urgency m = true →
  ∃ st', classify_message settings llm upper st = MkM [] (Ok st')
         ∧ st' !! "intent" = Some (VStr "urgent")
         ∧ st' !! "requires_escalation" = Some (VBool true).
Proof.
  intros Hm Hh Hu.
  rewrite (classify_message_urgent_eq st m Hm Hh Hu).
  eexists. split; [reflexivity|]. by simplify_map_eq.
Qed.

End Classify.

(** ** retrieve_context, generate_response, check_escalation *)

Section Nodes_eq.

Context {tools : Tools}.
Context {formatter : PromptFormatter}.
Variable settings : Settings.
Variable llm : option provider.
Variable upper : string -> string.

Lemma retrieve_context_eq (st : state) (h : list history_entry) :
  get st "conversation_history" (VHistory []) = VHistory h →
  retrieve_context st
  = MkM [] (Ok (<["formatted_context" := VStr (format_context h)]> st)).
Proof. intros Hg. unfold retrieve_context. rewrite Hg. by m_simpl. Qed.

Lemma escalated_flag (st : state) :
  st !! "requires_escalation" = Some (VBool true) → escalated st = true.
Proof.
  intros H. unfold escalated. rewrite (get_lookup _ _ _ _ H). simpl.
  by rewrite orb_true_r.
Qed.

Lemma escalated_urgent (st : state) :
  st !! "intent" = Some (VStr "urgent") → escalated st = true.
Proof. intros H. unfold escalated. by rewrite (get_lookup _ _ _ _ H). Qed.

(** The escalation branch: the fixed message, and no call. *)
Lemma generate_response_escalated (st : state) :
  escalated st = true →
  generate_response settings llm upper st
  = MkM [] (Ok (<["requires_escalation" := VBool true]>
                  (<["response" := VStr ESCALATION_MESSAGE]> st))).
Proof.
  unfold escalated, generate_response. intros H. by rewrite H.
Qed.

Lemma wrap_prompt_str (base_prompt language : string) :
  _wrap_prompt_with_language_hint base_prompt (VStr language)
  = mret (hinted_template base_prompt language).
Proof.
  unfold _wrap_prompt_with_language_hint, hinted_template.
  cbn [truthy eq_str]. rewrite negb_involutive.
  destruct (String.eqb language "" || String.eqb language "en"); by m_simpl.
Qed.

Lemma mock_response_eq (intent : string) :
  mock_response intent = mret (mock_text intent).
Proof. reflexivity. Qed.

(** The generation branch on a state of the data model. *)
Lemma generate_response_eq (st : state) (intent variant language : string)
    (sentiment : float) :
  escalated st = false →
  get st "intent" (VStr "general") = VStr intent →
  get st "prompt_variant" (VStr (upper (agent_prompt_variant settings)))
    = VStr variant →
  get st "language" (VStr (agent_default_language settings)) = VStr language →
  get st "sentiment_score" (VFloat 0%float) = VFloat sentiment →
  let r := Request (hinted_template (_get_prompt_for_intent intent variant) language)
                   (get st "message" (VStr ""))
                   (get st "formatted_context" (VStr "")) in
  generate_response settings llm upper st
  = MkM (reply_calls llm r)
        (Ok (<["response" :=
                 VStr (adjust_response_for_sentiment (reply_text llm intent r) sentiment)]>
               st)).
Proof.
  intros He Hi Hv Hl Hs r. unfold generate_response.
  fold (escalated st). rewrite He, Hi, Hv, Hl, Hs. m_simpl.
  rewrite wrap_prompt_str. m_simpl. unfold reply_text, reply_calls.
  destruct llm as [p|].
  - unfold format_prompt, invoke. cbn [req_template req_message req_context r].
    destruct (format_messages _ _ _) as [[]|e0]; m_simpl.
    + fold r. destruct (p r) as [text|e]; m_simpl.
      * done.
      * rewrite mock_response_eq. by m_simpl.
    + rewrite mock_response_eq. by m_simpl.
  - rewrite mock_response_eq. by m_simpl.
Qed.

(** [generate_response] returns on every state of the data model and
    writes at most [response] and [requires_escalation]. *)
Lemma generate_response_cases (st : state) :
  in_model st = true →
  ∃ st', outcome (generate_response settings llm upper st) = Ok st'
    ∧ ((escalated st = true
        ∧ st' = <["requires_escalation" := VBool true]>
                  (<["response" := VStr ESCALATION_MESSAGE]> st))
       ∨ (escalated st = false ∧ ∃ text, st' = <["response" := VStr text]> st)).
Proof.
  intros Hin. apply in_model_parts in Hin as (_ & _ & Hi & Hl & Hv & Hs & _).
  destruct (escalated st) eqn:He.
  - rewrite (generate_response_escalated st He). eexists. split; [done|]. by left.
  - destruct (holds_str_get st "intent" "general" Hi) as [i Hgi].
    destruct (holds_str_get st "prompt_variant"
                (upper (agent_prompt_variant settings)) Hv) as [v Hgv].
    destruct (holds_str_get st "language"
                (agent_default_language settings) Hl) as [l Hgl].
    destruct (holds_float_get st "sentiment_score" 0%float Hs) as [f Hgf].
    rewrite (generate_response_eq st i v l f He Hgi Hgv Hgl Hgf).
    eexists. split; [done|]. right. split; [done|]. eauto.
Qed.

Lemma check_escalation_eq (st : state) (m : string) :
  get st "message" (VStr "") = VStr m →
  check_escalation st
  = MkM [] (Ok
      (let score := extract_sentiment_indicators m in
       if eq_str (get st "intent" (VStr "")) "urgent" then
         <["sentiment_score" := VFloat score]>
           (<["escalation_reason" := VStr URGENT_REASON]>
              (<["requires_escalation" := VBool true]> st))
       else if PrimFloat.leb score NEGATIVE_THRESHOLD then
         <["escalation_reason" := VStr NEGATIVE_REASON]>
           (<["requires_escalation" := VBool true]>
              (<["sentiment_score" := VFloat score]> st))
       else
         <["requires_escalation" := get st "requires_escalation" (VBool false)]>
           (<["sentiment_score" := VFloat score]> st))).
Proof.
  intros Hm. unfold check_escalation. rewrite Hm. cbn zeta.
  destruct (eq_str _ "urgent"); m_simpl; [done|].
  destruct (PrimFloat.leb _ _); by m_simpl.
Qed.

End Nodes_eq.

(** ** validate_response *)

Lemma validate_response_eq (st : state) (r : string) :
  get st "response" (VStr "") = VStr r →
  validate_response st
  = MkM [] (Ok
      (if is_valid r then <["response_valid" := VBool true]> st
       else <["requires_escalation" := VBool true]>
              (<["response" := VStr HANDOFF_MESSAGE]>
                 (<["response_valid" := VBool false]> st)))).
Proof.
  intros Hr. unfold validate_response. rewrite Hr. m_simpl.
  fold (is_valid r). by destruct (is_valid r).
Qed.

Lemma is_valid_iff (r : string) :
  is_valid r = true
  ↔ (10 < Str.len r)%nat ∧ (Str.len r < 1000)%nat ∧ Str.strip r ≠ "".
Proof.
  unfold is_valid. rewrite !andb_true_iff, negb_true_iff.
  rewrite !Nat.ltb_lt, String.eqb_neq. tauto.
Qed.

Lemma is_valid_escalation_message : is_valid ESCALATION_MESSAGE = true.
Proof. vm_compute. reflexivity. Qed.

Lemma is_valid_handoff_message : is_valid HANDOFF_MESSAGE = true.
Proof. vm_compute. reflexivity. Qed.

Lemma is_valid_sales_mock : is_valid SALES_MOCK_RESPONSE = true.
Proof. vm_compute. reflexivity. Qed.

(** ** Properties of single nodes *)

Ltac solve_get :=
  unfold with_language, initial_state; m_simpl; reflexivity.

Section NodeProperties.

Context {tools : Tools}.
Context {formatter : PromptFormatter}.
Variable settings : Settings.
Variable llm : option provider.
Variable upper : string -> string.

(** C2.  Every node returns on a state of the data model, and if
    [requires_escalation] is [True] before the node runs, it is [True] in
    the state the node returns: no node resets the flag. *)
Theorem requires_escalation_monotone (s : stage) (st : state) :
  holds_str st "message" = true →
  holds_history st "conversation_history" = true →
  holds_str st "response" = true →
  st !! "requires_escalation" = Some (VBool true) →
  ∃ st', outcome (run_stage settings llm upper s st) = Ok st'
         ∧ st' !! "requires_escalation" = Some (VBool true).
Proof.
  intros Hm Hh Hr He.
  destruct (holds_str_get st "message" "" Hm) as [m Hgm].
  destruct (holds_history_get st "conversation_history" [] Hh) as [h Hgh].
  destruct (holds_str_get st "response" "" Hr) as [r Hgr].
  destruct s; simpl.
  - destruct (classify_message_cases settings llm upper st m Hgm Hh)
      as (st' & Hrun & Hcases).
    exists st'. split; [done|].
    unfold with_language in Hcases.
    destruct Hcases as [[_ ->]|[[_ ->]|(_ & text & intent & ->)]];
      by simplify_map_eq.
  - rewrite (retrieve_context_eq st h Hgh). eexists. split; [done|].
    by simplify_map_eq.
  - rewrite (generate_response_escalated settings llm upper st (escalated_flag st He)).
    eexists. split; [done|]. by simplify_map_eq.
  - rewrite (check_escalation_eq st m Hgm). eexists. split; [done|].
    cbn zeta. rewrite (get_lookup _ _ _ _ He).
    destruct (eq_str _ _); [by simplify_map_eq|].
    destruct (PrimFloat.leb _ _); by simplify_map_eq.
  - rewrite (validate_response_eq st r Hgr). eexists. split; [done|].
    destruct (is_valid r); by simplify_map_eq.
Qed.

(** C3, as the code has it.  [check_escalation] makes no call and always
    records the sentiment score of the message.  When [intent] is
    ["urgent"] it sets [requires_escalation] and the reason
    "Urgent issue requiring immediate human attention"; otherwise, when the
    score is at most [-0.6], it sets [requires_escalation] and the reason
    "Highly negative sentiment detected".  Every key other than
    [requires_escalation], [escalation_reason] and [sentiment_score] keeps
    its value. *)
Theorem check_escalation_rules (st : state) (m : string) :
  get st "message" (VStr "") = VStr m →
  ∃ st', check_escalation st = MkM [] (Ok st')
    ∧ st' !! "sentiment_score" = Some (VFloat (extract_sentiment_indicators m))
    ∧ (st !! "intent" = Some (VStr "urgent") →
         st' !! "requires_escalation" = Some (VBool true)
         ∧ st' !! "escalation_reason"
           = Some (VStr "Urgent issue requiring immediate human attention"))
    ∧ (st !! "intent" ≠ Some (VStr "urgent") →
       PrimFloat.leb (extract_sentiment_indicators m) NEGATIVE_THRESHOLD = true →
         st' !! "requires_escalation" = Some (VBool true)
         ∧ st' !! "escalation_reason"
           = Some (VStr "Highly negative sentiment detected"))
    ∧ (∀ k, k ≠ "requires_escalation" → k ≠ "escalation_reason" →
            k ≠ "sentiment_score" → st' !! k = st !! k).
Proof.
  intros Hm. rewrite (check_escalation_eq st m Hm). eexists. split; [done|].
  cbn zeta.
  destruct (eq_str (get st "intent" (VStr "")) "urgent") eqn:Hi.
  - apply eq_str_get_true in Hi; [|done].
    repeat split; intros; try done; by simplify_map_eq.
  - assert (st !! "intent" ≠ Some (VStr "urgent")) as Hne.
    { intros Hu. rewrite (get_lookup _ _ _ _ Hu) in Hi. discriminate. }
    destruct (PrimFloat.leb _ _) eqn:Hle;
      repeat split; intros; try done; by simplify_map_eq.
Qed.

(** C5.  [validate_response] makes no call and sets [response_valid] to a
    boolean that is [True] exactly when the response is longer than 10 and
    shorter than 1000 characters and its trimmed text is not empty.  When it
    is [False], [response] becomes the fixed hand-off message and
    [requires_escalation] becomes [True].  A response of 10 characters is
    rejected; one of 11 characters that are not all white space is
    accepted. *)
Theorem validate_response_acceptance (st : state) (r : string) :
  get st "response" (VStr "") = VStr r →
  ∃ st' (valid : bool),
    validate_response st = MkM [] (Ok st')
    ∧ st' !! "response_valid" = Some (VBool valid)
    ∧ (valid = true
       ↔ (10 < Str.len r)%nat ∧ (Str.len r < 1000)%nat ∧ Str.strip r ≠ "")
    ∧ (valid = false →
         st' !! "response" = Some (VStr HANDOFF_MESSAGE)
         ∧ st' !! "requires_escalation" = Some (VBool true))
    ∧ (Str.len r = 10%nat → valid = false)
    ∧ (Str.len r = 11%nat → Str.all_space r = false → valid = true).
Proof.
  intros Hr. rewrite (validate_response_eq st r Hr).
  eexists. exists (is_valid r). split; [done|].
  split; [destruct (is_valid r); by simplify_map_eq|].
  split; [apply is_valid_iff|].
  split; [intros ->; by simplify_map_eq|].
  split.
  - intros Hl. apply not_true_is_false. rewrite is_valid_iff. lia.
  - intros Hl Hs. apply is_valid_iff. repeat split; [lia..|].
    rewrite strip_empty_iff. congruence.
Qed.

(** C10.  A state that [validate_response] has rejected is accepted when
    the node is applied to it again: the second application returns,
    sets [response_valid] to [True] and leaves the response, the hand-off
    message, as it is. *)
Theorem validate_response_twice (st st1 : state) :
  outcome (validate_response st) = Ok st1 →
  st1 !! "response_valid" = Some (VBool false) →
  ∃ st2, validate_response st1 = MkM [] (Ok st2)
    ∧ st2 !! "response_valid" = Some (VBool true)
    ∧ st2 !! "response" = st1 !! "response"
    ∧ st1 !! "response" = Some (VStr HANDOFF_MESSAGE).
Proof.
  intros Hrun Hrej.
  assert (∃ r, get st "response" (VStr "") = VStr r) as [r Hr].
  { unfold validate_response in Hrun.
    destruct (get st "response" (VStr "")); try discriminate. eauto. }
  rewrite (validate_response_eq st r Hr) in Hrun. simpl in Hrun.
  destruct (is_valid r); simplify_eq; [by simplify_map_eq|].
  rewrite (validate_response_eq _ HANDOFF_MESSAGE) by solve_get.
  rewrite is_valid_handoff_message.
  eexists. split; [done|]. by simplify_map_eq.
Qed.

End NodeProperties.

(** ** Runs of the workflow *)

Lemma get_empty k d : get (∅ : state) k d = d.
Proof. reflexivity. Qed.

Lemma initial_state_message m h :
  get (initial_state m h) "message" (VStr "") = VStr m.
Proof. solve_get. Qed.

Lemma initial_state_history m h :
  holds_history (initial_state m h) "conversation_history" = true.
Proof. unfold holds_history, initial_state. by simplify_map_eq. Qed.

Lemma rule_based_pricing : _rule_based_classification PRICING_MESSAGE = "sales".
Proof. vm_compute. reflexivity. Qed.

Lemma mock_text_sales : mock_text "sales" = SALES_MOCK_RESPONSE.
Proof. vm_compute. reflexivity. Qed.

Ltac run_simpl :=
  repeat first
    [ rewrite get_empty
    | progress m_simpl
    | progress cbn [eq_str truthy orb negb] ].

Section Runs.

Context {tools : Tools}.
Context {formatter : PromptFormatter}.
Variable settings : Settings.
Variable llm : option provider.
Variable upper : string -> string.

(** A message with an urgency marker: the run makes no call and ends with
    the escalation message, in either order of the escalation gate and the
    generator. *)
Lemma run_urgent (m : string) (history : list history_entry) (order : list stage) :
  detect_urgency m = true →
  order = generate_first ∨ order = gate_first →
  ∃ st', run_stages settings llm upper order (initial_state m history)
         = MkM [] (Ok st')
    ∧ st' !! "intent" = Some (VStr "urgent")
    ∧ st' !! "requires_escalation" = Some (VBool true)
    ∧ st' !! "response" = Some (VStr ESCALATION_MESSAGE).
Proof.
  intros Hu [-> | ->]; unfold generate_first, gate_first;
    cbn [run_stages run_stage];
    rewrite (classify_message_urgent_eq settings llm upper _ m
               (initial_state_message m history)
               (initial_state_history m history) Hu);
    m_simpl;
    rewrite (retrieve_context_eq _ history) by solve_get;
    m_simpl.
  - rewrite generate_response_escalated
      by (apply escalated_urgent; unfold with_language; by simplify_map_eq).
    m_simpl.
    rewrite (check_escalation_eq _ m) by solve_get.
    cbn zeta. run_simpl. rewrite String.eqb_refl.
    rewrite (validate_response_eq _ ESCALATION_MESSAGE) by solve_get.
    rewrite is_valid_escalation_message. run_simpl.
    eexists. split; [reflexivity|]. by simplify_map_eq.
  - rewrite (check_escalation_eq _ m) by solve_get.
    cbn zeta. run_simpl. rewrite String.eqb_refl.
    rewrite generate_response_escalated
      by (apply escalated_urgent; unfold with_language; by simplify_map_eq).
    m_simpl.
    rewrite (validate_response_eq _ ESCALATION_MESSAGE) by solve_get.
    rewrite is_valid_escalation_message. run_simpl.
    eexists. split; [reflexivity|]. by simplify_map_eq.
Qed.

(** C4.  In a state whose [requires_escalation] is [True] or whose
    [intent] is ["urgent"], [generate_response] sets [response] to the
    escalation message itself and makes no call.  For the message
    "This is ridiculous!!! I've been charged twice!", which the tests have
    [detect_urgency] accept, the run ends with [intent] ["urgent"],
    [requires_escalation] [True] and the escalation message as [response],
    in either order of the escalation gate and the generator. *)
Theorem generate_response_escalation_message :
  (∀ st : state,
     st !! "requires_escalation" = Some (VBool true)
     ∨ st !! "intent" = Some (VStr "urgent") →
     ∃ st', generate_response settings llm upper st = MkM [] (Ok st')
            ∧ st' !! "response" = Some (VStr ESCALATION_MESSAGE))
  ∧ (detect_urgency RIDICULOUS_MESSAGE = true →
     ∀ (history : list history_entry) (order : list stage),
       order = generate_first ∨ order = gate_first →
       ∃ st', run_stages settings llm upper order
                (initial_state RIDICULOUS_MESSAGE history) = MkM [] (Ok st')
         ∧ st' !! "intent" = Some (VStr "urgent")
         ∧ st' !! "requires_escalation" = Some (VBool true)
         ∧ st' !! "response" = Some (VStr ESCALATION_MESSAGE)).
Proof.
  split.
  - intros st H.
    rewrite generate_response_escalated
      by (destruct H; [by apply escalated_flag|by apply escalated_urgent]).
    eexists. split; [reflexivity|]. by simplify_map_eq.
  - intros Hu history order Ho. by apply run_urgent.
Qed.

End Runs.

Section Sales.

Context {tools : Tools}.
Context {formatter : PromptFormatter}.
Variable settings : Settings.
Variable upper : string -> string.

Lemma rule_based_sales (m kw : string) :
  In kw ["price"; "pricing"; "cost"; "buy"; "purchase"; "plan"; "enterprise"; "demo"] →
  Str.contains kw (Str.lower m) = true →
  _rule_based_classification m = "sales".
Proof.
  intros Hin Hc. unfold _rule_based_classification. cbn zeta.
  match goal with |- context [existsb ?f ?l] =>
    replace (existsb f l) with true; [done|] end.
  symmetry. apply existsb_exists. eauto.
Qed.

Lemma rule_based_not_sales (m : string) :
  (∀ kw, In kw ["price"; "pricing"; "cost"; "buy"; "purchase"; "plan";
                "enterprise"; "demo"] →
         Str.contains kw (Str.lower m) = false) →
  _rule_based_classification m
  = if existsb (fun kw => Str.contains kw (Str.lower m))
         ["order"; "tracking"; "issue"; "problem"; "help"; "support"; "not working"]
    then "support" else "general".
Proof.
  intros Hno. unfold _rule_based_classification. cbn zeta.
  match goal with |- context [existsb ?f ?l] =>
    replace (existsb f l) with false; [done|] end.
  symmetry. apply not_true_is_false. intros H.
  apply existsb_exists in H as (kw & Hin & Hc).
  rewrite (Hno kw Hin) in Hc. discriminate.
Qed.

(** The pricing question, no provider, generator before the escalation
    gate. *)
Lemma run_pricing_generate_first (history : list history_entry) :
  detect_urgency PRICING_MESSAGE = false →
  adjust_response_for_sentiment SALES_MOCK_RESPONSE 0%float = SALES_MOCK_RESPONSE →
  ∃ st', run_stages settings None upper generate_first
           (initial_state PRICING_MESSAGE history)
         = MkM [RuleBased PRICING_MESSAGE] (Ok st')
    ∧ st' !! "intent" = Some (VStr "sales")
    ∧ st' !! "response" = Some (VStr SALES_MOCK_RESPONSE)
    ∧ st' !! "response_valid" = Some (VBool true).
Proof.
  intros Hu Hadj. unfold generate_first. cbn [run_stages run_stage].
  rewrite (classify_message_rule_based_eq settings upper _ PRICING_MESSAGE
             (initial_state_message _ history)
             (initial_state_history _ history) Hu).
  rewrite rule_based_pricing. m_simpl.
  rewrite (retrieve_context_eq _ history) by solve_get.
  m_simpl.
  erewrite (generate_response_eq settings None upper _ "sales")
    by (unfold escalated; unfold with_language, initial_state; run_simpl; reflexivity).
  cbn zeta. cbn [reply_text]. rewrite mock_text_sales, Hadj. m_simpl.
  rewrite (check_escalation_eq _ PRICING_MESSAGE) by solve_get.
  cbn zeta. run_simpl.
  change (String.eqb "sales" "urgent") with false. cbn iota.
  destruct (PrimFloat.leb _ _);
    rewrite (validate_response_eq _ SALES_MOCK_RESPONSE) by solve_get;
    rewrite is_valid_sales_mock; run_simpl;
    (eexists; split; [reflexivity|]; by simplify_map_eq).
Qed.

(** The same with the escalation gate before the generator, for a message whose
    sentiment score is [0.0]. *)
Lemma run_pricing_gate_first (history : list history_entry) :
  detect_urgency PRICING_MESSAGE = false →
  extract_sentiment_indicators PRICING_MESSAGE = 0%float →
  adjust_response_for_sentiment SALES_MOCK_RESPONSE 0%float = SALES_MOCK_RESPONSE →
  ∃ st', run_stages settings None upper gate_first
           (initial_state PRICING_MESSAGE history)
         = MkM [RuleBased PRICING_MESSAGE] (Ok st')
    ∧ st' !! "intent" = Some (VStr "sales")
    ∧ st' !! "response" = Some (VStr SALES_MOCK_RESPONSE)
    ∧ st' !! "response_valid" = Some (VBool true).
Proof.
  intros Hu Hz Hadj. unfold gate_first. cbn [run_stages run_stage].
  rewrite (classify_message_rule_based_eq settings upper _ PRICING_MESSAGE
             (initial_state_message _ history)
             (initial_state_history _ history) Hu).
  rewrite rule_based_pricing. m_simpl.
  rewrite (retrieve_context_eq _ history) by solve_get.
  m_simpl.
  rewrite (check_escalation_eq _ PRICING_MESSAGE) by solve_get.
  cbn zeta. run_simpl.
  change (String.eqb "sales" "urgent") with false. cbn iota.
  rewrite Hz.
  change (PrimFloat.leb 0 NEGATIVE_THRESHOLD) with false. cbn iota.
  unfold with_language, initial_state. run_simpl.
  erewrite (generate_response_eq settings None upper _ "sales")
    by (unfold escalated; run_simpl; reflexivity).
  cbn zeta. cbn [reply_text]. rewrite mock_text_sales, Hadj. m_simpl.
  rewrite (validate_response_eq _ SALES_MOCK_RESPONSE) by solve_get.
  rewrite is_valid_sales_mock. run_simpl.
  eexists. split; [reflexivity|]. by simplify_map_eq.
Qed.

(** C9.  The rule-based classification looks for the sales keywords in the
    lowered message first, then for the support keywords, and answers
    ["general"] when neither set matches.  For the message
    "What's the pricing for your enterprise plan?", which [detect_urgency]
    rejects, and no provider, the run ends with [intent] ["sales"], the sales
    mock response as [response], which a neutral sentiment leaves as it is,
    and [response_valid] [True]. *)
Theorem rule_based_classification_order :
  (∀ m kw : string,
     In kw ["price"; "pricing"; "cost"; "buy"; "purchase"; "plan";
            "enterprise"; "demo"] →
     Str.contains kw (Str.lower m) = true →
     _rule_based_classification m = "sales")
  ∧ (∀ m : string,
       (∀ kw, In kw ["price"; "pricing"; "cost"; "buy"; "purchase"; "plan";
                     "enterprise"; "demo"] →
              Str.contains kw (Str.lower m) = false) →
       (∀ kw, In kw ["order"; "tracking"; "issue"; "problem"; "help";
                     "support"; "not working"] →
              Str.contains kw (Str.lower m) = true →
              _rule_based_classification m = "support")
       ∧ ((∀ kw, In kw ["order"; "tracking"; "issue"; "problem"; "help";
                        "support"; "not working"] →
                 Str.contains kw (Str.lower m) = false) →
          _rule_based_classification m = "general"))
  ∧ (detect_urgency PRICING_MESSAGE = false →
     adjust_response_for_sentiment SALES_MOCK_RESPONSE 0%float
       = SALES_MOCK_RESPONSE →
     ∀ history : list history_entry,
       (∃ st', run_stages settings None upper generate_first
                 (initial_state PRICING_MESSAGE history)
               = MkM [RuleBased PRICING_MESSAGE] (Ok st')
          ∧ st' !! "intent" = Some (VStr "sales")
          ∧ st' !! "response" = Some (VStr SALES_MOCK_RESPONSE)
          ∧ st' !! "response_valid" = Some (VBool true))
       ∧ (extract_sentiment_indicators PRICING_MESSAGE = 0%float →
          ∃ st', run_stages settings None upper gate_first
                   (initial_state PRICING_MESSAGE history)
                 = MkM [RuleBased PRICING_MESSAGE] (Ok st')
            ∧ st' !! "intent" = Some (VStr "sales")
            ∧ st' !! "response" = Some (VStr SALES_MOCK_RESPONSE)
            ∧ st' !! "response_valid" = Some (VBool true))).
Proof.
  split; [exact rule_based_sales|]. split.
  - intros m Hno. rewrite (rule_based_not_sales m Hno). split.
    + intros kw Hin Hc.
      match goal with |- context [existsb ?f ?l] =>
        replace (existsb f l) with true; [done|] end.
      symmetry. apply existsb_exists. eauto.
    + intros Hnone.
      match goal with |- context [existsb ?f ?l] =>
        replace (existsb f l) with false; [done|] end.
      symmetry. apply not_true_is_false. intros H.
      apply existsb_exists in H as (kw & Hin & Hc).
      rewrite (Hnone kw Hin) in Hc. discriminate.
  - intros Hu Hadj history. split.
    + by apply run_pricing_generate_first.
    + intros Hz. by apply run_pricing_gate_first.
Qed.

End Sales.

(** ** The escalation reason, the language hint, the parsed category *)


Lemma parse_billing_line :
  filter (fun line => Str.contains "CLASSIFICATION:" line = true)
         (Str.split Str.nl_char BILLING_REPLY) !! 0%nat
  = Some "CLASSIFICATION: BILLING".
Proof. vm_compute. reflexivity. Qed.

Lemma parse_billing_category :
  Str.split ":" "CLASSIFICATION: BILLING" !! 1%nat = Some " BILLING".
Proof. vm_compute. reflexivity. Qed.

Section Reasons.

Context {tools : Tools}.
Context {formatter : PromptFormatter}.
Variable settings : Settings.
Variable llm : option provider.
Variable upper : string -> string.

(** When the provider raises, [classify_message] falls back to the
    rule-based intent and returns. *)
Lemma classify_message_provider_failure (p : provider) (st : state) (m : string)
    (h : list history_entry) (e : exn) :
  get st "message" (VStr "") = VStr m →
  get st "conversation_history" (VHistory []) = VHistory h →
  detect_urgency m = false →
  let r := Request CLASSIFICATION_PROMPT (VStr m) (VStr (format_context h)) in
  p r = Raise e →
  classify_message settings (Some p) upper st
  = MkM [LLMInvoke r; RuleBased m]
        (Ok (<["intent" := VStr (_rule_based_classification m)]>
               (with_language settings upper m st))).
Proof.
  intros Hm Hg Hu r Hp.
  rewrite (classify_message_prefix settings (Some p) upper st m h Hm Hg).
  cbn zeta. rewrite Hu. unfold invoke. fold r. rewrite Hp.
  unfold call_rule_based, emit. by m_simpl.
Qed.

(** C6, on the code.  With a provider whose reply is in the expected
    format but names the category BILLING, [classify_message] returns and
    the intent is ["billing"]: the parsed category is stored as it comes. *)
Theorem classify_message_unchecked_category (p : provider) (st : state)
    (m : string) :
  get st "message" (VStr "") = VStr m →
  holds_history st "conversation_history" = true →
  detect_urgency m = false →
  (∀ r, p r = Ok BILLING_REPLY) →
  ∃ st', outcome (classify_message settings (Some p) upper st) = Ok st'
         ∧ st' !! "intent" = Some (VStr "billing").
Proof.
  intros Hm Hh Hu Hp.
  destruct (holds_history_get st "conversation_history" [] Hh) as [h Hg].
  rewrite (classify_message_prefix settings (Some p) upper st m h Hm Hg).
  cbn zeta. rewrite Hu. unfold invoke. rewrite Hp.
  m_simpl.
  change (Str.contains "CLASSIFICATION:" BILLING_REPLY) with true. cbn iota.
  unfold index. rewrite parse_billing_line. m_simpl.
  rewrite parse_billing_category. m_simpl.
  eexists. split; [reflexivity|].
  change (Str.lower (Str.strip " BILLING")) with "billing".
  by simplify_map_eq.
Qed.

(** C7, as the code has it.  [check_escalation] is the only node that
    writes [escalation_reason]: when it turns [requires_escalation] to
    [True] it sets the reason to a string in the same step, and the other
    four nodes return with [escalation_reason] as they found it. *)
Theorem escalation_reason_set_by_check_escalation (st : state) :
  in_model st = true →
  (∃ st', check_escalation st = MkM [] (Ok st')
     ∧ (st !! "requires_escalation" ≠ Some (VBool true) →
        st' !! "requires_escalation" = Some (VBool true) →
        ∃ reason, st' !! "escalation_reason" = Some (VStr reason)))
  ∧ (∀ s, s ≠ CheckEscalation →
       ∃ st', outcome (run_stage settings llm upper s st) = Ok st'
              ∧ st' !! "escalation_reason" = st !! "escalation_reason").
Proof.
  intros Hin.
  destruct (in_model_parts st Hin) as (Hm & Hh & _ & _ & _ & _ & Hr).
  destruct (holds_str_get st "message" "" Hm) as [m Hgm].
  destruct (holds_history_get st "conversation_history" [] Hh) as [h Hgh].
  destruct (holds_str_get st "response" "" Hr) as [r Hgr].
  split.
  - rewrite (check_escalation_eq st m Hgm). eexists. split; [reflexivity|].
    cbn zeta. intros Hbefore Hafter.
    destruct (eq_str _ _); [eexists; by simplify_map_eq|].
    destruct (PrimFloat.leb _ _); [eexists; by simplify_map_eq|].
    exfalso. apply Hbefore. rewrite lookup_insert_eq in Hafter.
    unfold get in Hafter. destruct (st !! "requires_escalation"); simpl in Hafter;
      congruence.
  - intros s Hs. destruct s; simpl; [| | | done |].
    + destruct (classify_message_cases settings llm upper st m Hgm Hh)
        as (st' & Hrun & Hcases).
      exists st'. split; [done|]. unfold with_language in Hcases.
      destruct Hcases as [[_ ->]|[[_ ->]|(_ & text & intent & ->)]];
        by simplify_map_eq.
    + rewrite (retrieve_context_eq st h Hgh). eexists. split; [done|].
      by simplify_map_eq.
    + destruct (generate_response_cases settings llm upper st Hin)
        as (st' & Hrun & Hcases).
      exists st'. split; [done|].
      destruct Hcases as [[_ ->]|(_ & text & ->)]; by simplify_map_eq.
    + rewrite (validate_response_eq st r Hgr). eexists. split; [done|].
      destruct (is_valid r); by simplify_map_eq.
Qed.


End Reasons.

(** * The nodes on concrete inputs

    The sample helpers, the default settings and the states of the unit
    tests. *)

Lemma mock_responses_sales : MOCK_RESPONSES !! "sales" = Some SALES_MOCK_RESPONSE.
Proof. vm_compute. reflexivity. Qed.

(** test_detect_urgency and test_classify_message_urgent on the sample. *)
Example sample_detect_urgency :
  Sample.detect_urgency "This is ridiculous!!! I need help NOW!" = true
  ∧ Sample.detect_urgency "I've been charged twice, this is unacceptable" = true
  ∧ Sample.detect_urgency "Hello, I have a question about pricing" = false
  ∧ Sample.detect_urgency RIDICULOUS_MESSAGE = true
  ∧ Sample.detect_urgency PRICING_MESSAGE = false.
Proof. vm_compute. repeat split. Qed.

(** test_classify_message_support: the rule-based intent of the message. *)
Example rule_based_support :
  _rule_based_classification "I have an issue with my order #12345" = "support".
Proof. vm_compute. reflexivity. Qed.

(** Sales keywords win over support keywords. *)
Example rule_based_sales_wins :
  _rule_based_classification "I need help with the price of my order" = "sales".
Proof. vm_compute. reflexivity. Qed.

Lemma classify_message_urgent_short_circuit_witness :
  @detect_urgency sample_tools RIDICULOUS_MESSAGE = true
  ∧ ∃ st', @classify_message sample_tools default_settings
             (Some failing_provider) Sample.upper
             (initial_state RIDICULOUS_MESSAGE [])
           = MkM [] (Ok st')
      ∧ st' !! "intent" = Some (VStr "urgent")
      ∧ st' !! "requires_escalation" = Some (VBool true).
Proof.
  split; [reflexivity|].
  apply (@classify_message_urgent_short_circuit sample_tools default_settings
           (Some failing_provider) Sample.upper
           (initial_state RIDICULOUS_MESSAGE []) RIDICULOUS_MESSAGE);
    reflexivity.
Defined.

Lemma requires_escalation_monotone_witness :
  state_flagged !! "requires_escalation" = Some (VBool true)
  ∧ ∃ st', outcome (@run_stage sample_tools sample_formatter
        default_settings None Sample.upper
                      CheckEscalation state_flagged) = Ok st'
      ∧ st' !! "requires_escalation" = Some (VBool true).
Proof.
  split; [reflexivity|].
  apply (@requires_escalation_monotone sample_tools sample_formatter
        default_settings None
           Sample.upper CheckEscalation state_flagged); reflexivity.
Defined.

Lemma check_escalation_rules_witness :
  ∃ st', @check_escalation sample_tools state_urgent = MkM [] (Ok st')
    ∧ st' !! "sentiment_score"
      = Some (VFloat (@extract_sentiment_indicators sample_tools "This is terrible!"))
    ∧ (state_urgent !! "intent" = Some (VStr "urgent") →
         st' !! "requires_escalation" = Some (VBool true)
         ∧ st' !! "escalation_reason"
           = Some (VStr "Urgent issue requiring immediate human attention"))
    ∧ (state_urgent !! "intent" ≠ Some (VStr "urgent") →
       PrimFloat.leb (@extract_sentiment_indicators sample_tools "This is terrible!")
         NEGATIVE_THRESHOLD = true →
         st' !! "requires_escalation" = Some (VBool true)
         ∧ st' !! "escalation_reason"
           = Some (VStr "Highly negative sentiment detected"))
    ∧ (∀ k, k ≠ "requires_escalation" → k ≠ "escalation_reason" →
            k ≠ "sentiment_score" → st' !! k = state_urgent !! k).
Proof.
  apply (@check_escalation_rules sample_tools state_urgent "This is terrible!").
  reflexivity.
Defined.

(** The reason the spec words for an urgent intent is not the one the
    node records: on [state_urgent] the reason is the code's sentence. *)
Lemma check_escalation_reason_counterexample :
  ∃ st', @check_escalation sample_tools state_urgent = MkM [] (Ok st')
    ∧ st' !! "escalation_reason"
      = Some (VStr "Urgent issue requiring immediate human attention")
    ∧ st' !! "escalation_reason"
      ≠ Some (VStr "urgent issue requiring immediate attention").
Proof.
  rewrite (check_escalation_eq state_urgent "This is terrible!") by reflexivity.
  eexists. split; [reflexivity|]. cbn zeta.
  change (eq_str (get state_urgent "intent" (VStr "")) "urgent") with true.
  cbn iota. rewrite lookup_insert_ne by done. rewrite lookup_insert_eq.
  split; [reflexivity|]. unfold URGENT_REASON. discriminate.
Qed.

Lemma generate_response_escalation_message_witness :
  (∃ st', @generate_response sample_tools sample_formatter default_settings
            (Some failing_provider) Sample.upper state_flagged
          = MkM [] (Ok st')
     ∧ st' !! "response" = Some (VStr ESCALATION_MESSAGE))
  ∧ (∃ st', @run_stages sample_tools sample_formatter
        default_settings (Some failing_provider)
              Sample.upper generate_first (initial_state RIDICULOUS_MESSAGE [])
            = MkM [] (Ok st')
       ∧ st' !! "intent" = Some (VStr "urgent")
       ∧ st' !! "requires_escalation" = Some (VBool true)
       ∧ st' !! "response" = Some (VStr ESCALATION_MESSAGE)).
Proof.
  destruct (@generate_response_escalation_message sample_tools sample_formatter
        default_settings
              (Some failing_provider) Sample.upper) as [Hnode Hrun].
  split.
  - apply Hnode. left. reflexivity.
  - apply Hrun; [reflexivity|]. left. reflexivity.
Defined.

Lemma validate_response_acceptance_witness :
  ∃ st' (valid : bool),
    validate_response state_invalid = MkM [] (Ok st')
    ∧ st' !! "response_valid" = Some (VBool valid)
    ∧ (valid = true
       ↔ (10 < Str.len "Hi")%nat ∧ (Str.len "Hi" < 1000)%nat ∧ Str.strip "Hi" ≠ "")
    ∧ (valid = false →
         st' !! "response" = Some (VStr HANDOFF_MESSAGE)
         ∧ st' !! "requires_escalation" = Some (VBool true))
    ∧ (Str.len "Hi" = 10%nat → valid = false)
    ∧ (Str.len "Hi" = 11%nat → Str.all_space "Hi" = false → valid = true).
Proof.
  apply (validate_response_acceptance state_invalid "Hi"). reflexivity.
Defined.

Lemma validate_response_twice_witness :
  ∃ st2, validate_response state_rejected = MkM [] (Ok st2)
    ∧ st2 !! "response_valid" = Some (VBool true)
    ∧ st2 !! "response" = state_rejected !! "response"
    ∧ state_rejected !! "response" = Some (VStr HANDOFF_MESSAGE).
Proof.
  apply (validate_response_twice state_invalid state_rejected); reflexivity.
Defined.

Lemma classify_message_unchecked_category_witness :
  @detect_urgency sample_tools "Hello there" = false
  ∧ ∃ st', outcome (@classify_message sample_tools default_settings
                      (Some (constant_provider BILLING_REPLY)) Sample.upper
                      (initial_state "Hello there" [])) = Ok st'
      ∧ st' !! "intent" = Some (VStr "billing").
Proof.
  split; [reflexivity|].
  apply (@classify_message_unchecked_category sample_tools default_settings
           Sample.upper (constant_provider BILLING_REPLY)
           (initial_state "Hello there" []) "Hello there");
    reflexivity.
Defined.

Lemma escalation_reason_set_by_check_escalation_witness :
  (∃ st', @check_escalation sample_tools state_urgent = MkM [] (Ok st')
     ∧ (state_urgent !! "requires_escalation" ≠ Some (VBool true) →
        st' !! "requires_escalation" = Some (VBool true) →
        ∃ reason, st' !! "escalation_reason" = Some (VStr reason)))
  ∧ (∀ s, s ≠ CheckEscalation →
       ∃ st', outcome (@run_stage sample_tools sample_formatter
             default_settings None
                         Sample.upper s state_urgent) = Ok st'
              ∧ st' !! "escalation_reason" = state_urgent !! "escalation_reason").
Proof.
  apply (@escalation_reason_set_by_check_escalation sample_tools sample_formatter
           default_settings None Sample.upper state_urgent).
  reflexivity.
Defined.

(** Two first transitions without a reason: [validate_response] rejecting
    the response of [state_invalid], and the urgency short-circuit of
    [classify_message]. *)
Lemma escalation_without_reason_counterexample :
  (state_invalid !! "requires_escalation" = None
   ∧ ∃ st', validate_response state_invalid = MkM [] (Ok st')
       ∧ st' !! "requires_escalation" = Some (VBool true)
       ∧ st' !! "escalation_reason" = None)
  ∧ (initial_state RIDICULOUS_MESSAGE [] !! "requires_escalation" = None
     ∧ ∃ st', @classify_message sample_tools default_settings None Sample.upper
                (initial_state RIDICULOUS_MESSAGE [])
              = MkM [] (Ok st')
         ∧ st' !! "requires_escalation" = Some (VBool true)
         ∧ st' !! "escalation_reason" = None).
Proof.
  split; (split; [reflexivity|]).
  - rewrite (validate_response_eq state_invalid "Hi") by reflexivity.
    change (is_valid "Hi") with false. cbn iota.
    eexists. split; [reflexivity|]. unfold state_invalid. by simplify_map_eq.
  - rewrite (@classify_message_urgent_eq sample_tools default_settings None
               Sample.upper _ RIDICULOUS_MESSAGE) by reflexivity.
    eexists. split; [reflexivity|].
    unfold with_language, initial_state. by simplify_map_eq.
Qed.

Lemma sample_template_fields_spanish :
  Sample.template_fields None
    (("You MUST answer in language code 'es'." +:+ Str.nl +:+ Str.nl)
     +:+ GENERAL_RESPONSE_PROMPT_A)
  = Ok ["message"; "context"].
Proof. vm_compute. reflexivity. Qed.

Lemma sample_template_fields_braces :
  Sample.template_fields None
    (("You MUST answer in language code '{x}'." +:+ Str.nl +:+ Str.nl)
     +:+ GENERAL_RESPONSE_PROMPT_A)
  = Ok ["x"; "message"; "context"].
Proof. vm_compute. reflexivity. Qed.



(** A state without a language takes the configured default: under
    [french_settings] the template carries the directive for ["fr"], under
    [default_settings] it carries none. *)
Lemma generate_response_missing_language :
  no_language_state !! "language" = None
  ∧ trace (@generate_response sample_tools sample_formatter french_settings
             (Some (constant_provider "Bonjour, comment puis-je vous aider ?"))
             Sample.upper no_language_state)
    = [LLMInvoke
         (Request (("You MUST answer in language code 'fr'." +:+ Str.nl +:+ Str.nl)
                   +:+ GENERAL_RESPONSE_PROMPT_A)
                  (VStr "Bonjour") (VStr ""))]
  ∧ trace (@generate_response sample_tools sample_formatter default_settings
             (Some (constant_provider "Hello, how can I help you?"))
             Sample.upper no_language_state)
    = [LLMInvoke (Request GENERAL_RESPONSE_PROMPT_A (VStr "Bonjour") (VStr ""))].
Proof.
  split; [reflexivity|]. split; vm_compute; reflexivity.
Qed.

Lemma rule_based_classification_order_witness :
  _rule_based_classification "How much does the plan cost?" = "sales"
  ∧ (∃ st', @run_stages sample_tools sample_formatter
        default_settings None Sample.upper
              generate_first (initial_state PRICING_MESSAGE [])
            = MkM [RuleBased PRICING_MESSAGE] (Ok st')
       ∧ st' !! "intent" = Some (VStr "sales")
       ∧ st' !! "response" = Some (VStr SALES_MOCK_RESPONSE)
       ∧ st' !! "response_valid" = Some (VBool true))
  ∧ (∃ st', @run_stages sample_tools sample_formatter
        default_settings None Sample.upper
              gate_first (initial_state PRICING_MESSAGE [])
            = MkM [RuleBased PRICING_MESSAGE] (Ok st')
       ∧ st' !! "intent" = Some (VStr "sales")
       ∧ st' !! "response" = Some (VStr SALES_MOCK_RESPONSE)
       ∧ st' !! "response_valid" = Some (VBool true)).
Proof.
  destruct (@rule_based_classification_order sample_tools sample_formatter
        default_settings
              Sample.upper) as (Hsales & _ & Hrun).
  split.
  - apply (Hsales "How much does the plan cost?" "cost"); [|reflexivity].
    simpl. tauto.
  - destruct (Hrun eq_refl eq_refl []) as [Hgen Hgate].
    split; [exact Hgen|]. apply Hgate. reflexivity.
Defined.

(** * Further properties

    ** Strings: trimming, lowering, splitting *)

Lemma lower_char_idem (c : ascii) :
  Str.lower_char (Str.lower_char c) = Str.lower_char c.
Proof. destruct c as [[] [] [] [] [] [] [] []]; vm_compute; reflexivity. Qed.

Lemma is_space_lower_char (c : ascii) :
  Str.is_space (Str.lower_char c) = Str.is_space c.
Proof. destruct c as [[] [] [] [] [] [] [] []]; vm_compute; reflexivity. Qed.

Lemma lower_idem (s : string) : Str.lower (Str.lower s) = Str.lower s.
Proof.
  induction s as [|c s IH]; simpl; [done|]. by rewrite lower_char_idem, IH.
Qed.

Lemma lstrip_lower (s : string) :
  Str.lstrip (Str.lower s) = Str.lower (Str.lstrip s).
Proof.
  induction s as [|c s IH]; simpl; [done|].
  rewrite is_space_lower_char. by destruct (Str.is_space c).
Qed.

Lemma rstrip_lower (s : string) :
  Str.rstrip (Str.lower s) = Str.lower (Str.rstrip s).
Proof.
  induction s as [|c s IH]; simpl; [done|].
  rewrite IH, is_space_lower_char.
  destruct (Str.rstrip s); simpl; [by destruct (Str.is_space c)|done].
Qed.

Lemma strip_lower (s : string) :
  Str.strip (Str.lower s) = Str.lower (Str.strip s).
Proof. unfold Str.strip. by rewrite lstrip_lower, rstrip_lower. Qed.

Lemma rstrip_idem (s : string) : Str.rstrip (Str.rstrip s) = Str.rstrip s.
Proof.
  induction s as [|c s IH]; simpl; [done|].
  destruct (Str.rstrip s) as [|d r] eqn:E.
  - destruct (Str.is_space c) eqn:Ec; simpl; [done|by rewrite Ec].
  - simpl in *. by rewrite IH.
Qed.

Lemma lstrip_head (s : string) :
  Str.lstrip s = ""
  ∨ ∃ c t, Str.lstrip s = String c t ∧ Str.is_space c = false.
Proof.
  induction s as [|c s IH]; simpl; [by left|].
  destruct (Str.is_space c) eqn:E; [done|]. right. eauto.
Qed.

Lemma rstrip_keeps_head (c : ascii) (t : string) :
  Str.is_space c = false → ∃ r, Str.rstrip (String c t) = String c r.
Proof.
  intros Hc. simpl. destruct (Str.rstrip t); [rewrite Hc|]; eauto.
Qed.

Lemma strip_idem (s : string) : Str.strip (Str.strip s) = Str.strip s.
Proof.
  unfold Str.strip.
  destruct (lstrip_head s) as [->|(c & t & -> & Hc)]; [done|].
  destruct (rstrip_keeps_head c t Hc) as [r Hr].
  assert (Str.lstrip (Str.rstrip (String c t)) = Str.rstrip (String c t)) as ->.
  { rewrite Hr. simpl. by rewrite Hc. }
  apply rstrip_idem.
Qed.

(** A lowered and trimmed string is its own lowered and trimmed form. *)
Lemma normal_form_idem (s : string) :
  Str.strip (Str.lower (Str.strip (Str.lower s))) = Str.strip (Str.lower s).
Proof. by rewrite (strip_lower s), lower_idem, <- strip_lower, strip_idem. Qed.

Lemma split_nonempty (sep : ascii) (s : string) :
  ∃ w ws, Str.split sep s = w :: ws.
Proof.
  induction s as [|c s (w & ws & IH)]; simpl; [eauto|].
  destruct (Ascii.eqb c sep); [eauto|]. rewrite IH. eauto.
Qed.

Lemma prefix_contains (n s : string) :
  String.prefix n s = true → Str.contains n s = true.
Proof. intros H. destruct s; simpl in *; by rewrite H. Qed.

Lemma contains_cons (n : string) (c : ascii) (s : string) :
  Str.contains n s = true → Str.contains n (String c s) = true.
Proof. intros H. simpl. rewrite H. apply orb_true_r. Qed.

(** A prefix without the separator is a prefix of the first piece. *)
Lemma prefix_first_piece (sep : ascii) (n s : string) :
  has_char sep n = false →
  String.prefix n s = true →
  ∃ w ws, Str.split sep s = w :: ws ∧ String.prefix n w = true.
Proof.
  revert s. induction n as [|a n IH]; intros s Hn Hp.
  - destruct (split_nonempty sep s) as (w & ws & Hs). exists w, ws.
    split; [done|]. by destruct w.
  - destruct s as [|c s]; [done|]. simpl in Hp, Hn.
    apply orb_false_iff in Hn as [Ha Hn].
    destruct (ascii_dec a c) as [->|]; [|done].
    destruct (IH s Hn Hp) as (w & ws & Hs & Hw).
    exists (String c w), ws. simpl. rewrite Ha, Hs. split; [done|].
    by destruct (ascii_dec c c).
Qed.

(** A text without the separator that occurs in [s] occurs in one of the
    pieces of [s]. *)
Lemma contains_split (sep : ascii) (n s : string) :
  has_char sep n = false →
  Str.contains n s = true →
  ∃ piece, piece ∈ Str.split sep s ∧ Str.contains n piece = true.
Proof.
  intros Hn. induction s as [|c s IH]; intros Hc.
  - exists "". split; [simpl; set_solver|done].
  - simpl in Hc. apply orb_true_iff in Hc as [Hp|Hc].
    + destruct (prefix_first_piece sep n (String c s) Hn Hp) as (w & ws & Hs & Hw).
      exists w. rewrite Hs. split; [set_solver|by apply prefix_contains].
    + destruct (IH Hc) as (piece & Hin & Hpiece). simpl.
      destruct (Ascii.eqb c sep); [exists piece; split; [set_solver|done]|].
      destruct (split_nonempty sep s) as (w & ws & Hs). rewrite Hs in *.
      apply elem_of_cons in Hin as [->|Hin].
      * exists (String c w). split; [set_solver|by apply contains_cons].
      * exists piece. split; [set_solver|done].
Qed.

Lemma has_char_prefix (c : ascii) (n s : string) :
  has_char c n = true → String.prefix n s = true → has_char c s = true.
Proof.
  revert s. induction n as [|a n IH]; intros s Hn Hp; [done|].
  destruct s as [|b s]; [done|]. simpl in *.
  destruct (ascii_dec a b) as [->|]; [|done].
  apply orb_true_iff in Hn as [->|Hn]; [done|].
  rewrite (IH s Hn Hp). apply orb_true_r.
Qed.

Lemma has_char_contains (c : ascii) (n s : string) :
  has_char c n = true → Str.contains n s = true → has_char c s = true.
Proof.
  intros Hn. induction s as [|b s IH]; intros Hc.
  - simpl in Hc. rewrite orb_false_r in Hc. by apply (has_char_prefix c n "").
  - simpl in Hc. apply orb_true_iff in Hc as [Hp|Hc].
    + by apply (has_char_prefix c n).
    + simpl. rewrite (IH Hc). apply orb_true_r.
Qed.

(** A string in which the separator occurs splits into two pieces at
    least. *)
Lemma split_second_piece (sep : ascii) (s : string) :
  has_char sep s = true → ∃ part, Str.split sep s !! 1%nat = Some part.
Proof.
  induction s as [|c s IH]; intros H; [done|]. simpl in *.
  destruct (Ascii.eqb c sep).
  - destruct (split_nonempty sep s) as (w & ws & ->). eauto.
  - destruct (IH H) as [part Hpart].
    destruct (split_nonempty sep s) as (w & ws & Hs). rewrite Hs in *. eauto.
Qed.

Lemma filter_first (P : string → bool) (l : list string) (x : string) :
  x ∈ l → P x = true →
  ∃ y, filter (fun z => P z = true) l !! 0%nat = Some y ∧ P y = true.
Proof.
  intros Hin Hx.
  assert (x ∈ filter (fun z => P z = true) l) as Hf.
  { apply list_elem_of_filter. done. }
  destruct (filter (fun z => P z = true) l) as [|y l'] eqn:E; [set_solver|].
  exists y. split; [done|].
  assert (y ∈ filter (fun z => P z = true) l) as Hy by (rewrite E; set_solver).
  by apply list_elem_of_filter in Hy as [? _].
Qed.

(** ** classify_message with a provider *)

Lemma marker_has_no_newline : has_char Str.nl_char "CLASSIFICATION:" = false.
Proof. vm_compute. reflexivity. Qed.

Lemma marker_has_colon : has_char ":" "CLASSIFICATION:" = true.
Proof. vm_compute. reflexivity. Qed.

(** A reply that contains the marker has a first marked line, and that
    line has a second field. *)
Lemma marked_reply_fields (text : string) :
  Str.contains "CLASSIFICATION:" text = true →
  ∃ line part,
    filter (fun l => Str.contains "CLASSIFICATION:" l = true)
           (Str.split Str.nl_char text) !! 0%nat = Some line
    ∧ Str.contains "CLASSIFICATION:" line = true
    ∧ Str.split ":" line !! 1%nat = Some part.
Proof.
  intros Hc.
  destruct (contains_split Str.nl_char _ text marker_has_no_newline Hc)
    as (piece & Hin & Hpiece).
  destruct (filter_first (Str.contains "CLASSIFICATION:") _ piece Hin Hpiece)
    as (line & Hline & Hmark).
  destruct (split_second_piece ":" line
              (has_char_contains ":" _ line marker_has_colon Hmark))
    as [part Hpart].
  eauto.
Qed.

Lemma rule_based_values (m : string) :
  _rule_based_classification m = "sales"
  ∨ _rule_based_classification m = "support"
  ∨ _rule_based_classification m = "general".
Proof.
  unfold _rule_based_classification. cbn zeta.
  repeat match goal with |- context [existsb ?f ?l] => destruct (existsb f l) end;
    tauto.
Qed.

Section ClassifyProvider.

Context {tools : Tools}.
Variable settings : Settings.
Variable upper : string -> string.

(** X1.  With a provider whose reply contains the marker, the parse of
    [classify_message] does not fail: the reply has a first line with the
    marker and that line has a second colon-separated field.  The intent is
    that field, trimmed and lowered, the whole reply is kept as
    [classification_reason], and the rule-based classifier is not called. *)
Theorem classify_message_parses_marked_reply (p : provider) (st : state)
    (m : string) (h : list history_entry) (text : string) :
  get st "message" (VStr "") = VStr m →
  get st "conversation_history" (VHistory []) = VHistory h →
  detect_urgency m = false →
  p (Request CLASSIFICATION_PROMPT (VStr m) (VStr (format_context h))) = Ok text →
  Str.contains "CLASSIFICATION:" text = true →
  ∃ line part,
    filter (fun l => Str.contains "CLASSIFICATION:" l = true)
           (Str.split Str.nl_char text) !! 0%nat = Some line
    ∧ Str.split ":" line !! 1%nat = Some part
    ∧ classify_message settings (Some p) upper st
      = MkM [LLMInvoke (Request CLASSIFICATION_PROMPT (VStr m)
                                (VStr (format_context h)))]
            (Ok (<["classification_reason" := VStr text]>
                   (<["intent" := VStr (Str.lower (Str.strip part))]>
                      (with_language settings upper m st)))).
Proof.
  intros Hm Hg Hu Hp Hc.
  destruct (marked_reply_fields text Hc) as (line & part & Hline & _ & Hpart).
  exists line, part. split; [done|]. split; [done|].
  rewrite (classify_message_prefix settings (Some p) upper st m h Hm Hg).
  cbn zeta. rewrite Hu. unfold invoke. rewrite Hp. m_simpl. rewrite Hc.
  unfold index. rewrite Hline. m_simpl. rewrite Hpart. by m_simpl.
Qed.

(** X2.  When the provider raises, or answers without the marker,
    [classify_message] returns with the rule-based intent; it has made the
    one provider call and the rule-based call, and writes no
    [classification_reason]. *)
Theorem classify_message_falls_back (p : provider) (st : state)
    (m : string) (h : list history_entry) :
  get st "message" (VStr "") = VStr m →
  get st "conversation_history" (VHistory []) = VHistory h →
  detect_urgency m = false →
  (∃ e, p (Request CLASSIFICATION_PROMPT (VStr m) (VStr (format_context h)))
        = Raise e)
  ∨ (∃ text, p (Request CLASSIFICATION_PROMPT (VStr m) (VStr (format_context h)))
             = Ok text
             ∧ Str.contains "CLASSIFICATION:" text = false) →
  classify_message settings (Some p) upper st
  = MkM [LLMInvoke (Request CLASSIFICATION_PROMPT (VStr m)
                            (VStr (format_context h)));
         RuleBased m]
        (Ok (<["intent" := VStr (_rule_based_classification m)]>
               (with_language settings upper m st))).
Proof.
  intros Hm Hg Hu Hp.
  rewrite (classify_message_prefix settings (Some p) upper st m h Hm Hg).
  cbn zeta. rewrite Hu. unfold invoke, call_rule_based, emit.
  destruct Hp as [[e ->]|(text & -> & Hc)]; m_simpl; [done|].
  rewrite Hc. by m_simpl.
Qed.

Variable llm : option provider.

(** The intent [classify_message] stores, whatever the provider does. *)
Lemma classify_message_intent (st : state) (m : string) :
  get st "message" (VStr "") = VStr m →
  holds_history st "conversation_history" = true →
  ∃ st' intent,
    outcome (classify_message settings llm upper st) = Ok st'
    ∧ st' !! "intent" = Some (VStr intent)
    ∧ (intent = "urgent" ∨ intent = _rule_based_classification m
       ∨ ∃ part, intent = Str.lower (Str.strip part)).
Proof.
  intros Hm Hh.
  destruct (holds_history_get st "conversation_history" [] Hh) as [h Hg].
  rewrite (classify_message_prefix settings llm upper st m h Hm Hg). cbn zeta.
  destruct (detect_urgency m) eqn:Hu.
  { eexists _, _. split; [reflexivity|]. split; [by simplify_map_eq|]. by left. }
  destruct llm as [p|]; unfold invoke, call_rule_based, emit; m_simpl.
  2: { eexists _, _. split; [reflexivity|]. split; [by simplify_map_eq|]. tauto. }
  match goal with
  | |- context [MkM [LLMInvoke ?r] ?o] => destruct o as [text|e]
  end; m_simpl.
  2: { eexists _, _. split; [reflexivity|]. split; [by simplify_map_eq|]. tauto. }
  destruct (Str.contains "CLASSIFICATION:" text) eqn:Hc; m_simpl.
  2: { eexists _, _. split; [reflexivity|]. split; [by simplify_map_eq|]. tauto. }
  destruct (marked_reply_fields text Hc) as (line & part & Hline & _ & Hpart).
  unfold index. rewrite Hline. m_simpl. rewrite Hpart. m_simpl.
  eexists _, _. split; [reflexivity|]. split; [by simplify_map_eq|]. eauto.
Qed.

(** X3.  The intent [classify_message] stores is always in normal form:
    lowering it or trimming it changes nothing, whatever the provider
    answered. *)
Theorem classify_message_intent_normal_form (st : state) :
  holds_str st "message" = true →
  holds_history st "conversation_history" = true →
  ∃ st' intent,
    outcome (classify_message settings llm upper st) = Ok st'
    ∧ st' !! "intent" = Some (VStr intent)
    ∧ Str.lower intent = intent
    ∧ Str.strip intent = intent.
Proof.
  intros Hm Hh.
  destruct (holds_str_get st "message" "" Hm) as [m Hgm].
  destruct (classify_message_intent st m Hgm Hh)
    as (st' & intent & Hrun & Hi & Hcases).
  exists st', intent. split; [done|]. split; [done|].
  destruct Hcases as [-> | [-> | [part ->]]].
  - done.
  - destruct (rule_based_values m) as [-> | [-> | ->]]; done.
  - split; [apply lower_idem|].
    by rewrite strip_lower, strip_idem.
Qed.

End ClassifyProvider.

(** ** What the nodes write, and what they keep *)

Lemma in_model_build (st : state) :
  holds_str st "message" = true →
  holds_history st "conversation_history" = true →
  holds_str st "intent" = true →
  holds_str st "language" = true →
  holds_str st "prompt_variant" = true →
  holds_float st "sentiment_score" = true →
  holds_str st "response" = true →
  in_model st = true.
Proof. unfold in_model. intros. rewrite !andb_true_iff. tauto. Qed.

Ltac lookup_simpl :=
  repeat first
    [ rewrite lookup_insert_eq
    | rewrite lookup_insert_ne by done ].

Ltac in_model_step H :=
  apply in_model_parts in H as (? & ? & ? & ? & ? & ? & ?);
  apply in_model_build;
  unfold holds_str, holds_float, holds_history in *;
  lookup_simpl; done.

Lemma not_in_cons (k x : string) (l : list string) :
  k ∉ x :: l → x ≠ k ∧ k ∉ l.
Proof. intros H. split; [intros ->; apply H; by left|intros Hin; apply H; by right]. Qed.

Ltac frame_step Hk :=
  cbn [node_writes] in Hk;
  repeat (apply not_in_cons in Hk as [? Hk]);
  lookup_simpl; reflexivity.

Section Frames.

Context {tools : Tools}.
Context {formatter : PromptFormatter}.
Variable settings : Settings.
Variable llm : option provider.
Variable upper : string -> string.

(** X4.  On a state of the data model every node returns, whatever the
    provider answers or raises, and the keys it does not assign keep their
    values: [classify_message] assigns only language, prompt_variant, intent,
    requires_escalation and classification_reason; [retrieve_context] only
    formatted_context; [generate_response] only response and
    requires_escalation; [check_escalation] only requires_escalation,
    escalation_reason and sentiment_score; [validate_response] only
    response_valid, response and requires_escalation. *)
Theorem node_assigns_only_its_keys (s : stage) (st : state) :
  in_model st = true →
  ∃ st', outcome (run_stage settings llm upper s st) = Ok st'
    ∧ ∀ k, k ∉ node_writes s → st' !! k = st !! k.
Proof.
  intros Hin.
  destruct (in_model_parts st Hin) as (Hm & Hh & _ & _ & _ & _ & Hr).
  destruct (holds_str_get st "message" "" Hm) as [m Hgm].
  destruct (holds_history_get st "conversation_history" [] Hh) as [h Hgh].
  destruct (holds_str_get st "response" "" Hr) as [r Hgr].
  destruct s; simpl.
  - destruct (classify_message_cases settings llm upper st m Hgm Hh)
      as (st' & Hrun & Hcases).
    exists st'. split; [done|]. intros k Hk. unfold with_language in Hcases.
    destruct Hcases as [[_ ->]|[[_ ->]|(_ & text & intent & ->)]];
      frame_step Hk.
  - rewrite (retrieve_context_eq st h Hgh). eexists. split; [done|].
    intros k Hk. frame_step Hk.
  - destruct (generate_response_cases settings llm upper st Hin)
      as (st' & Hrun & Hcases).
    exists st'. split; [done|]. intros k Hk.
    destruct Hcases as [[_ ->]|(_ & text & ->)]; frame_step Hk.
  - rewrite (check_escalation_eq st m Hgm). eexists. split; [done|].
    intros k Hk. cbn zeta.
    destruct (eq_str _ _); [frame_step Hk|].
    destruct (PrimFloat.leb _ _); frame_step Hk.
  - rewrite (validate_response_eq st r Hgr). eexists. split; [done|].
    intros k Hk. destruct (is_valid r); frame_step Hk.
Qed.

(** Every node maps the data model to itself. *)
Lemma node_keeps_data_model (s : stage) (st : state) :
  in_model st = true →
  ∃ st', outcome (run_stage settings llm upper s st) = Ok st'
         ∧ in_model st' = true.
Proof.
  intros Hin.
  destruct (in_model_parts st Hin) as (Hm & Hh & _ & _ & _ & _ & Hr).
  destruct (holds_str_get st "message" "" Hm) as [m Hgm].
  destruct (holds_history_get st "conversation_history" [] Hh) as [h Hgh].
  destruct (holds_str_get st "response" "" Hr) as [r Hgr].
  destruct s; simpl.
  - destruct (classify_message_cases settings llm upper st m Hgm Hh)
      as (st' & Hrun & Hcases).
    exists st'. split; [done|]. unfold with_language in Hcases.
    destruct Hcases as [[_ ->]|[[_ ->]|(_ & text & intent & ->)]];
      in_model_step Hin.
  - rewrite (retrieve_context_eq st h Hgh). eexists. split; [done|].
    in_model_step Hin.
  - destruct (generate_response_cases settings llm upper st Hin)
      as (st' & Hrun & Hcases).
    exists st'. split; [done|].
    destruct Hcases as [[_ ->]|(_ & text & ->)]; in_model_step Hin.
  - rewrite (check_escalation_eq st m Hgm). eexists. split; [done|].
    cbn zeta.
    destruct (eq_str _ _); [in_model_step Hin|].
    destruct (PrimFloat.leb _ _); in_model_step Hin.
  - rewrite (validate_response_eq st r Hgr). eexists. split; [done|].
    destruct (is_valid r); in_model_step Hin.
Qed.

(** X5.  The nodes compose: applied one after the other in any order and
    any number of times to a state of the data model, they all return, and
    the final state is in the data model again.  No exception of the
    provider, of the parse or of a lookup ends a sequence of nodes. *)
Theorem nodes_compose (ss : list stage) (st : state) :
  in_model st = true →
  ∃ st', outcome (run_stages settings llm upper ss st) = Ok st'
         ∧ in_model st' = true.
Proof.
  revert st. induction ss as [|s ss IH]; intros st Hin.
  - exists st. done.
  - cbn [run_stages].
    destruct (node_keeps_data_model s st Hin) as (st1 & Hrun & Hin1).
    destruct (IH st1 Hin1) as (st' & Hrest & Hin').
    exists st'. split; [|done].
    unfold mbind, M_bind. rewrite Hrun. done.
Qed.

End Frames.

(** ** Calls of the provider *)

Lemma llm_calls_app (t1 t2 : list event) :
  llm_calls (t1 ++ t2) = (llm_calls t1 ++ llm_calls t2)%list.
Proof. unfold llm_calls. apply omap_app. Qed.

Lemma trace_bind {A B} (m : M A) (k : A → M B) :
  trace (m ≫= k)
  = (trace m ++ match outcome m with Ok a => trace (k a) | Raise _ => [] end)%list.
Proof.
  unfold mbind, M_bind. destruct (outcome m); simpl; [done|by rewrite app_nil_r].
Qed.

Lemma trace_try_except {A} (body : M A) (handler : exn → M A) :
  trace (try_except body handler)
  = (trace body
     ++ match outcome body with Ok _ => [] | Raise e => trace (handler e) end)%list.
Proof.
  unfold try_except. destruct (outcome body); simpl; [by rewrite app_nil_r|done].
Qed.

Lemma trace_as_str v : trace (as_str v) = [].
Proof. by destruct v. Qed.

Lemma trace_as_float v : trace (as_float v) = [].
Proof. by destruct v. Qed.

Lemma trace_as_history v : trace (as_history v) = [].
Proof. by destruct v. Qed.

Lemma trace_index {A} (l : list A) i : trace (index l i) = [].
Proof. unfold index. by destruct (l !! i). Qed.

Lemma trace_wrap_prompt base language :
  trace (_wrap_prompt_with_language_hint base language) = [].
Proof.
  unfold _wrap_prompt_with_language_hint.
  destruct (negb (truthy language) || eq_str language "en"); [done|].
  rewrite trace_bind, trace_as_str. by destruct (outcome (as_str language)).
Qed.

Lemma trace_mock_response intent : trace (mock_response intent) = [].
Proof. reflexivity. Qed.

Lemma trace_format_prompt {formatter : PromptFormatter} template message context :
  trace (format_prompt template message context) = [].
Proof. reflexivity. Qed.

Ltac calls_simpl :=
  repeat first
    [ rewrite trace_bind
    | rewrite trace_try_except
    | rewrite trace_as_str
    | rewrite trace_as_float
    | rewrite trace_as_history
    | rewrite trace_index
    | rewrite trace_wrap_prompt
    | rewrite trace_mock_response
    | rewrite trace_format_prompt
    | rewrite llm_calls_app
    | progress cbn [trace outcome invoke call_rule_based emit mock_response
                    mret M_ret] ].

Ltac calls_cases :=
  repeat (calls_simpl;
          try match goal with
              | |- context [match outcome ?m with _ => _ end] =>
                  destruct (outcome m)
              | |- context [match ?x with Ok _ => _ | Raise _ => _ end] =>
                  destruct x
              | |- context [match ?x with Some _ => _ | None => _ end] =>
                  destruct x
              | |- context [if ?b then _ else _] => destruct b
              end).

Section Calls.

Context {tools : Tools}.
Context {formatter : PromptFormatter}.
Variable settings : Settings.
Variable llm : option provider.
Variable upper : string -> string.

(** X6.  On any state, of the data model or not, a node calls the provider
    at most once; [retrieve_context], [check_escalation] and
    [validate_response] never call it; and no node calls it when no provider
    is configured. *)
Theorem node_provider_calls (s : stage) (st : state) :
  let calls := llm_calls (trace (run_stage settings llm upper s st)) in
  (length calls ≤ 1)%nat
  ∧ (s ≠ Classify → s ≠ Generate → calls = [])
  ∧ (llm = None → calls = []).
Proof.
  cbn zeta.
  destruct s; cbn [run_stage];
    unfold classify_message, retrieve_context, generate_response,
      check_escalation, validate_response;
    (split; [|split]); intros; try congruence;
    try match goal with H : llm = None |- _ => rewrite H end;
    calls_cases; (done || (simpl; lia)).
Qed.

End Calls.

(** ** generate_response without a reply, the templates, the flag *)

Lemma mock_text_cases (intent : string) :
  ∃ base, mock_text intent = base
    ∧ (MOCK_RESPONSES !! intent = Some base
       ∨ (MOCK_RESPONSES !! intent = None
          ∧ MOCK_RESPONSES !! "general" = Some base)).
Proof.
  unfold mock_text. destruct (MOCK_RESPONSES !! intent) as [b|] eqn:E; simpl.
  - eauto.
  - eexists. split; [reflexivity|]. right. split; [done|].
    vm_compute. reflexivity.
Qed.

Section Generate.

Context {tools : Tools}.
Context {formatter : PromptFormatter}.
Variable settings : Settings.
Variable llm : option provider.
Variable upper : string -> string.

(** X7.  On the generation branch, when no provider is configured or the
    provider raises, [generate_response] returns and the response is the
    mock response of the intent, or the general one for an intent of which
    [MOCK_RESPONSES] has none, passed through
    [adjust_response_for_sentiment] with the state's sentiment score. *)
Theorem generate_response_mock_fallback (st : state)
    (intent variant language : string) (sentiment : float) :
  escalated st = false →
  get st "intent" (VStr "general") = VStr intent →
  get st "prompt_variant" (VStr (upper (agent_prompt_variant settings)))
    = VStr variant →
  get st "language" (VStr (agent_default_language settings)) = VStr language →
  get st "sentiment_score" (VFloat 0%float) = VFloat sentiment →
  llm = None
  ∨ (∃ p e, llm = Some p
      ∧ p (Request (hinted_template (_get_prompt_for_intent intent variant) language)
                   (get st "message" (VStr ""))
                   (get st "formatted_context" (VStr ""))) = Raise e) →
  ∃ base,
    (MOCK_RESPONSES !! intent = Some base
     ∨ (MOCK_RESPONSES !! intent = None ∧ MOCK_RESPONSES !! "general" = Some base))
    ∧ outcome (generate_response settings llm upper st)
      = Ok (<["response" := VStr (adjust_response_for_sentiment base sentiment)]> st).
Proof.
  intros He Hi Hv Hl Hs Hllm.
  rewrite (generate_response_eq settings llm upper st intent variant language
             sentiment He Hi Hv Hl Hs).
  cbn zeta. cbn [outcome].
  destruct (mock_text_cases intent) as (base & Hbase & Hcases).
  exists base. split; [done|].
  destruct Hllm as [->|(p & e & -> & Hp)]; cbn [reply_text].
  - by rewrite Hbase.
  - cbn [req_template req_message req_context].
    destruct (format_messages _ _ _); by rewrite ?Hp, Hbase.
Qed.

(** X9.  [check_escalation] leaves [requires_escalation] a boolean: it
    is [True] exactly when the intent is ["urgent"], or the sentiment score
    of the message is at most [-0.6], or the flag was [True] before.  When
    neither rule fires, [escalation_reason] keeps its value. *)
Theorem check_escalation_flag (st : state) (m : string) (before : bool) :
  get st "message" (VStr "") = VStr m →
  get st "requires_escalation" (VBool false) = VBool before →
  let urgent := eq_str (get st "intent" (VStr "")) "urgent" in
  let negative :=
    PrimFloat.leb (extract_sentiment_indicators m) NEGATIVE_THRESHOLD in
  ∃ st', check_escalation st = MkM [] (Ok st')
    ∧ st' !! "requires_escalation" = Some (VBool (urgent || negative || before))
    ∧ (urgent || negative = false →
       st' !! "escalation_reason" = st !! "escalation_reason").
Proof.
  intros Hm Hb. cbn zeta.
  rewrite (check_escalation_eq st m Hm). eexists. split; [reflexivity|].
  cbn zeta. rewrite Hb.
  destruct (eq_str _ _); [split; [by simplify_map_eq|done]|].
  destruct (PrimFloat.leb _ _); [split; [by simplify_map_eq|done]|].
  split; intros; by simplify_map_eq.
Qed.

End Generate.

Section Templates.

Context {tools : Tools}.

(** X8.  [_get_prompt_for_intent] always returns one of the six response
    templates, whatever key [select_prompt_variant] computes, and the
    general template A for a key that is none of the six. *)
Theorem get_prompt_for_intent_known (intent variant : string) :
  _get_prompt_for_intent intent variant
    ∈ [SUPPORT_RESPONSE_PROMPT_A; SUPPORT_RESPONSE_PROMPT_B;
       SALES_RESPONSE_PROMPT_A; SALES_RESPONSE_PROMPT_B;
       GENERAL_RESPONSE_PROMPT_A; GENERAL_RESPONSE_PROMPT_B]
  ∧ (str_in (select_prompt_variant intent variant)
       ["support_A"; "support_B"; "sales_A"; "sales_B"; "general_A"; "general_B"]
     = false →
     _get_prompt_for_intent intent variant = GENERAL_RESPONSE_PROMPT_A).
Proof.
  unfold _get_prompt_for_intent. cbn zeta.
  remember (select_prompt_variant intent variant) as key eqn:Hkey. clear Hkey.
  destruct (prompt_mapping !! key) as [t|] eqn:E; simpl.
  - apply elem_of_list_to_map_2 in E.
    split.
    + repeat (apply elem_of_cons in E as [E|E]; [inversion E; subst; set_solver|]).
      by apply elem_of_nil in E.
    + intros Hk. exfalso.
      repeat (apply elem_of_cons in E as [E|E];
              [inversion E; subst; vm_compute in Hk; discriminate|]).
      by apply elem_of_nil in E.
  - split; [set_solver|done].
Qed.

End Templates.

(** ** The LLM clients *)

Lemma is_set_str_or (o : option string) (d : string) :
  is_set o = true → ∃ k, o = Some k ∧ k ≠ "" ∧ str_or o d = k.
Proof.
  destruct o as [k|]; simpl; [|done].
  destruct (String.eqb_spec k ""); [done|]. eauto.
Qed.

Lemma str_or_some (p d : string) : p ≠ "" → str_or (Some p) d = p.
Proof. intros Hp. simpl. by destruct (String.eqb_spec p ""). Qed.

(** [get_llm], by the class its name stands for. *)
Lemma get_llm_by_name (env : imports) (settings : LLMSettings)
    (provider_name : option string) (kw : llm_kwargs) :
  get_llm env settings provider_name kw
  = match class_of_name (routed_name settings provider_name) with
    | Some cls => returned (construct cls env settings kw)
    | None =>
        if String.eqb (routed_name settings provider_name) "mock" then inr None
        else inl (ValueError
                    ("Invalid LLM provider: " +:+ routed_name settings provider_name
                     +:+ ". "
                     +:+ "Valid options: openrouter, openai, chatgpt, anthropic, claude, mock"))
    end.
Proof.
  unfold get_llm, class_of_name, routed_name. cbn zeta.
  repeat match goal with |- context [str_in ?x ?l] => destruct (str_in x l) end;
    reflexivity.
Qed.

Lemma construct_ok (cls : client_class) (env : imports) (settings : LLMSettings)
    (kw : llm_kwargs) (c : client) :
  construct cls env settings kw = inr c →
  client_class_of c = cls
  ∧ imported env cls = true
  ∧ key_for settings cls = Some (client_api_key c)
  ∧ client_api_key c ≠ ""
  ∧ client_temperature c = default (agent_temperature settings) (temperature kw)
  ∧ client_max_tokens c = default (agent_max_tokens settings) (max_tokens kw)
  ∧ client_kwargs c = other_kwargs kw.
Proof.
  destruct cls; simpl;
    unfold get_chatgpt_llm, get_claude_llm, get_openrouter_llm;
    match goal with |- context [negb ?b] => destruct b eqn:Hi end; simpl; try done;
    match goal with |- context [is_set ?o] => destruct (is_set o) eqn:Hk end;
    simpl; try done;
    intros [= <-]; simpl;
    destruct (is_set_str_or _ "" Hk) as (k & -> & Hne & Hor); simpl in *;
    rewrite Hor; done.
Qed.

Lemma construct_total (cls : client_class) (env : imports) (settings : LLMSettings)
    (kw : llm_kwargs) :
  imported env cls = true →
  is_set (key_for settings cls) = true →
  ∃ c, construct cls env settings kw = inr c.
Proof.
  destruct cls; simpl;
    unfold get_chatgpt_llm, get_claude_llm, get_openrouter_llm;
    intros -> ->; simpl; eauto.
Qed.

(** X10.  A client that [get_llm] returns is of the class its provider
    name stands for, was built with the API key the settings hold for that
    class, which is not empty, carries the temperature and the token limit
    of the call when the call gives them (a zero included) and those of
    the settings otherwise, and receives the other keyword arguments as they
    are. *)
Theorem get_llm_client (env : imports) (settings : LLMSettings)
    (provider_name : option string) (kw : llm_kwargs) (c : client) :
  get_llm env settings provider_name kw = inr (Some c) →
  class_of_name (routed_name settings provider_name) = Some (client_class_of c)
  ∧ key_for settings (client_class_of c) = Some (client_api_key c)
  ∧ client_api_key c ≠ ""
  ∧ client_temperature c = default (agent_temperature settings) (temperature kw)
  ∧ client_max_tokens c = default (agent_max_tokens settings) (max_tokens kw)
  ∧ client_kwargs c = other_kwargs kw.
Proof.
  rewrite get_llm_by_name.
  destruct (class_of_name _) as [cls|].
  - destruct (construct cls env settings kw) as [e|c'] eqn:E; simpl; [done|].
    intros [= ->].
    destruct (construct_ok cls env settings kw c E)
      as (<- & _ & Hk & Hne & Ht & Hm & Ho).
    done.
  - by destruct (String.eqb _ "mock").
Qed.

Lemma class_of_mock : class_of_name "mock" = None.
Proof. reflexivity. Qed.

Lemma class_of_name_known (n : string) (cls : client_class) :
  class_of_name n = Some cls → n ∈ known_names.
Proof.
  unfold class_of_name, str_in, known_names. cbn [existsb].
  repeat match goal with
         | |- context [String.eqb n ?k] =>
             destruct (String.eqb_spec n k) as [->|]; [set_solver|]
         end.
  done.
Qed.

Lemma known_name_class (n : string) :
  n ∈ known_names → n = "mock" ∨ ∃ cls, class_of_name n = Some cls.
Proof.
  unfold known_names. intros H.
  repeat (apply elem_of_cons in H as [->|H]; [right; eexists; reflexivity|]).
  apply elem_of_cons in H as [->|H]; [by left|]. by apply elem_of_nil in H.
Qed.

(** X11.  [get_llm] returns [None] exactly when the provider name, lowered
    and trimmed, is ["mock"], and raises the error for an invalid provider,
    which quotes that name, exactly when the name is none of the eight it
    knows.  The name is the argument when it is given and not empty, and
    [llm_provider] of the settings otherwise. *)
Theorem get_llm_mock_and_invalid (env : imports) (settings : LLMSettings)
    (provider_name : option string) (kw : llm_kwargs) :
  let name := Str.strip (Str.lower (str_or provider_name (llm_provider settings))) in
  (get_llm env settings provider_name kw = inr None ↔ name = "mock")
  ∧ (get_llm env settings provider_name kw
     = inl (ValueError
              ("Invalid LLM provider: " +:+ name +:+ ". "
               +:+ "Valid options: openrouter, openai, chatgpt, anthropic, claude, mock"))
     ↔ name ∉ known_names).
Proof.
  cbn zeta. rewrite get_llm_by_name. fold (routed_name settings provider_name).
  set (name := routed_name settings provider_name).
  destruct (class_of_name name) as [cls|] eqn:Hc.
  - assert (name ≠ "mock") as Hnm.
    { intros Heq. rewrite Heq in Hc. discriminate. }
    pose proof (class_of_name_known name cls Hc) as Hk.
    split; (split; [|done]).
    + by destruct (construct cls env settings kw).
    + destruct cls; simpl;
        unfold get_chatgpt_llm, get_claude_llm, get_openrouter_llm;
        repeat match goal with
               | |- context [if ?b then _ else _] => destruct b
               end; simpl; discriminate.
  - destruct (String.eqb_spec name "mock") as [Hm|Hm].
    + split; [done|]. split; [done|]. intros Hn. exfalso. apply Hn.
      rewrite Hm. unfold known_names. set_solver.
    + split; [split; [done|done]|]. split; [|done].
      intros _ Hk. destruct (known_name_class name Hk) as [?|[cls Hcls]]; [done|].
      rewrite Hcls in Hc. discriminate.
Qed.

(** X12.  [get_llm] reads a provider name without regard to case and to
    white space around it: a name and its lowered and trimmed form, when
    that is not empty, give the same result. *)
Theorem get_llm_name_normalised (env : imports) (settings : LLMSettings)
    (name : string) (kw : llm_kwargs) :
  Str.strip (Str.lower name) ≠ "" →
  get_llm env settings (Some name) kw
  = get_llm env settings (Some (Str.strip (Str.lower name))) kw.
Proof.
  intros Hn.
  assert (name ≠ "") as Hne by (intros ->; by apply Hn).
  rewrite !get_llm_by_name. unfold routed_name.
  rewrite (str_or_some name _ Hne), (str_or_some _ (llm_provider settings) Hn).
  by rewrite normal_form_idem.
Qed.

(** X13.  Whenever [AgentNodes._initialize_llm] builds a client,
    [get_llm] called without arguments under the same settings, with the
    class of that client imported, returns that very client: same class,
    key, model, temperature and token limit. *)
Theorem initialize_llm_agrees_with_get_llm (env : imports) (settings : LLMSettings)
    (c : client) :
  _initialize_llm settings = Some c →
  imported env (client_class_of c) = true →
  get_llm env settings None no_kwargs = inr (Some c).
Proof.
  unfold _initialize_llm. rewrite get_llm_by_name.
  unfold routed_name. cbn [str_or].
  destruct (String.eqb_spec (llm_provider settings) "openai") as [Hp|Hp]; simpl.
  - destruct (is_set (openai_api_key settings)) eqn:Hk; simpl.
    + intros [= <-] Hi. simpl in Hi. rewrite Hp.
      change (class_of_name (Str.strip (Str.lower "openai"))) with (Some ChatOpenAI).
      cbn [construct]. unfold get_chatgpt_llm. by rewrite Hi, Hk.
    + destruct (String.eqb_spec (llm_provider settings) "anthropic"); [congruence|done].
  - destruct (String.eqb_spec (llm_provider settings) "anthropic") as [Hq|Hq]; simpl; [|done].
    destruct (is_set (anthropic_api_key settings)) eqn:Hk; simpl; [|done].
    intros [= <-] Hi. simpl in Hi. rewrite Hq.
    change (class_of_name (Str.strip (Str.lower "anthropic"))) with (Some ChatAnthropic).
    cbn [construct]. unfold get_claude_llm. by rewrite Hi, Hk.
Qed.

(** X14.  [_initialize_llm] knows the provider names ["openai"] and
    ["anthropic"] only, as they are written: under any other
    [llm_provider] it returns [None], and the agent runs on mock responses,
    also for a name that [get_llm] routes to a client of the same
    settings. *)
Theorem initialize_llm_exact_names (env : imports) (settings : LLMSettings)
    (cls : client_class) :
  llm_provider settings ≠ "openai" →
  llm_provider settings ≠ "anthropic" →
  class_of_name (Str.strip (Str.lower (llm_provider settings))) = Some cls →
  imported env cls = true →
  is_set (key_for settings cls) = true →
  _initialize_llm settings = None
  ∧ ∃ c, get_llm env settings None no_kwargs = inr (Some c)
         ∧ client_class_of c = cls.
Proof.
  intros Ho Ha Hc Hi Hk. split.
  - unfold _initialize_llm.
    destruct (String.eqb_spec (llm_provider settings) "openai"); [done|].
    destruct (String.eqb_spec (llm_provider settings) "anthropic"); [done|].
    done.
  - rewrite get_llm_by_name. unfold routed_name. cbn [str_or]. rewrite Hc.
    destruct (construct_total cls env settings no_kwargs Hi Hk) as [c Hcon].
    rewrite Hcon. exists c. split; [done|].
    by destruct (construct_ok cls env settings no_kwargs c Hcon) as [? _].
Qed.

(** ** The cached client *)

(** A call that misses the cache stores what [get_llm] returned. *)
Lemma get_llm_cached_miss (env : imports) (settings : LLMSettings)
    (provider_name : option string) (kw : llm_kwargs) (cache : llm_cache) :
  _llm_instance cache = None
  ∨ _llm_provider cache ≠ Some (str_or provider_name (llm_provider settings)) →
  get_llm_cached env settings provider_name kw cache
  = match get_llm env settings provider_name kw with
    | inr instance =>
        (inr instance,
         {| _llm_instance := instance;
            _llm_provider := Some (str_or provider_name (llm_provider settings)) |})
    | inl e => (inl e, cache)
    end.
Proof.
  intros H. unfold get_llm_cached. cbn zeta.
  destruct (_llm_instance cache) as [instance|] eqn:E; [|done].
  destruct H as [H|H]; [done|]. by rewrite bool_decide_eq_false_2.
Qed.

Lemma get_llm_cached_hit_eq (env : imports) (settings : LLMSettings)
    (provider_name : option string) (kw : llm_kwargs) (cache : llm_cache)
    (instance : client) :
  _llm_instance cache = Some instance →
  _llm_provider cache = Some (str_or provider_name (llm_provider settings)) →
  get_llm_cached env settings provider_name kw cache = (inr (Some instance), cache).
Proof.
  intros Hi Hp. unfold get_llm_cached. cbn zeta.
  by rewrite Hi, bool_decide_eq_true_2.
Qed.

Lemma cache_consistent_empty : cache_consistent empty_llm_cache.
Proof. intros instance H. discriminate. Qed.

Lemma get_llm_cached_consistent (env : imports) (settings : LLMSettings)
    (provider_name : option string) (kw : llm_kwargs) (cache : llm_cache) :
  cache_consistent cache →
  cache_consistent (get_llm_cached env settings provider_name kw cache).2.
Proof.
  intros Hc. unfold get_llm_cached. cbn zeta.
  assert (cache_consistent
            (match get_llm env settings provider_name kw with
             | inr instance' =>
                 (inr instance' : router_error + option client,
                  {| _llm_instance := instance';
                     _llm_provider :=
                       Some (str_or provider_name (llm_provider settings)) |})
             | inl e => (inl e, cache)
             end).2) as Hmiss.
  { destruct (get_llm env settings provider_name kw) as [e|instance'] eqn:E;
      simpl; [done|].
    intros instance Hi. simpl in Hi. subst instance'.
    eexists. split; [reflexivity|].
    by destruct (get_llm_client env settings provider_name kw instance E) as [? _]. }
  destruct (_llm_instance cache) as [instance|]; [|done].
  destruct (bool_decide _); done.
Qed.

Lemma after_uses_consistent (uses : list cache_use) (cache : llm_cache) :
  cache_consistent cache → cache_consistent (after_uses uses cache).
Proof.
  revert cache. induction uses as [|[env settings provider_name kw|] uses IH];
    intros cache Hc; simpl; [done| |].
  - by apply IH, get_llm_cached_consistent.
  - apply IH, cache_consistent_empty.
Qed.

(** X15.  After any sequence of calls of [get_llm_cached] and
    [reset_llm_cache], with any settings and arguments, a call of
    [get_llm_cached] that returns a client returns one of the class that
    the provider it was called for stands for: the cache never serves the
    client of another provider. *)
Theorem get_llm_cached_serves_requested_class (uses : list cache_use)
    (env : imports) (settings : LLMSettings) (provider_name : option string)
    (kw : llm_kwargs) (c : client) :
  (get_llm_cached env settings provider_name kw
     (after_uses uses empty_llm_cache)).1 = inr (Some c) →
  class_of_name (Str.strip (Str.lower (str_or provider_name (llm_provider settings))))
  = Some (client_class_of c).
Proof.
  pose proof (after_uses_consistent uses _ cache_consistent_empty) as Hc.
  set (cache := after_uses uses empty_llm_cache) in *.
  unfold get_llm_cached. cbn zeta.
  assert ((match get_llm env settings provider_name kw with
           | inr instance' =>
               (inr instance' : router_error + option client,
                {| _llm_instance := instance';
                   _llm_provider :=
                     Some (str_or provider_name (llm_provider settings)) |})
           | inl e => (inl e, cache)
           end).1 = inr (Some c) →
          class_of_name
            (Str.strip (Str.lower (str_or provider_name (llm_provider settings))))
          = Some (client_class_of c)) as Hmiss.
  { destruct (get_llm env settings provider_name kw) as [e|instance'] eqn:E;
      simpl; [done|].
    intros [= ->].
    by destruct (get_llm_client env settings provider_name kw c E) as [? _]. }
  destruct (_llm_instance cache) as [instance|] eqn:Hi; [|done].
  destruct (bool_decide_reflect
              (_llm_provider cache
               = Some (str_or provider_name (llm_provider settings))))
    as [Hp|Hp]; [|done].
  simpl. intros [= ->].
  destruct (Hc c Hi) as (name & Hname & Hclass).
  rewrite Hp in Hname. by injection Hname as <-.
Qed.

(** X16.  Once [get_llm_cached] has returned a client, the next call for
    the same provider name returns that client and leaves the globals as
    they are, whatever its keyword arguments and whatever the API keys,
    temperature and token limit of the settings have become. *)
Theorem get_llm_cached_reuses_client (env env' : imports)
    (settings settings' : LLMSettings) (provider_name provider_name' : option string)
    (kw kw' : llm_kwargs) (cache cache1 : llm_cache) (c : client) :
  get_llm_cached env settings provider_name kw cache = (inr (Some c), cache1) →
  str_or provider_name' (llm_provider settings')
    = str_or provider_name (llm_provider settings) →
  get_llm_cached env' settings' provider_name' kw' cache1
  = (inr (Some c), cache1).
Proof.
  intros Hcall Hsame.
  apply get_llm_cached_hit_eq; rewrite ?Hsame;
    unfold get_llm_cached in Hcall; cbn zeta in Hcall;
    destruct (_llm_instance cache) as [instance|] eqn:Hi;
    try destruct (bool_decide_reflect
                    (_llm_provider cache
                     = Some (str_or provider_name (llm_provider settings))))
      as [Hp|Hp];
    try destruct (get_llm env settings provider_name kw) as [e|instance'];
    simplify_eq; done.
Qed.

(** X17.  While no client is cached (when the module is loaded, after
    [reset_llm_cache], after a call for the mock provider) a call of
    [get_llm_cached] returns or raises what [get_llm] does; and a call that
    raises leaves the globals as they were, so that a cached client
    survives a failed call for another provider. *)
Theorem get_llm_cached_miss_and_error (env : imports) (settings : LLMSettings)
    (provider_name : option string) (kw : llm_kwargs) (cache : llm_cache) :
  (_llm_instance cache = None →
   (get_llm_cached env settings provider_name kw cache).1
   = get_llm env settings provider_name kw)
  ∧ (get_llm_cached env settings provider_name kw (reset_llm_cache cache)).1
    = get_llm env settings provider_name kw
  ∧ (∀ e, (get_llm_cached env settings provider_name kw cache).1 = inl e →
          (get_llm_cached env settings provider_name kw cache).2 = cache).
Proof.
  split; [|split].
  - intros Hi. rewrite get_llm_cached_miss by (by left).
    by destruct (get_llm env settings provider_name kw).
  - rewrite get_llm_cached_miss by (by left).
    by destruct (get_llm env settings provider_name kw).
  - intros e. unfold get_llm_cached. cbn zeta.
    destruct (_llm_instance cache) as [instance|];
      try destruct (bool_decide _);
      destruct (get_llm env settings provider_name kw); simpl; done.
Qed.

(** ** The further properties on concrete inputs *)

Lemma classify_message_parses_marked_reply_witness :
  ∃ line part,
    filter (fun l => Str.contains "CLASSIFICATION:" l = true)
           (Str.split Str.nl_char BILLING_REPLY) !! 0%nat = Some line
    ∧ Str.split ":" line !! 1%nat = Some part
    ∧ @classify_message sample_tools default_settings
        (Some (constant_provider BILLING_REPLY)) Sample.upper
        (initial_state "Hello there" [])
      = MkM [LLMInvoke hello_request]
            (Ok (<["classification_reason" := VStr BILLING_REPLY]>
                   (<["intent" := VStr (Str.lower (Str.strip part))]>
                      (@with_language sample_tools default_settings Sample.upper
                         "Hello there" (initial_state "Hello there" []))))).
Proof.
  apply (@classify_message_parses_marked_reply sample_tools default_settings
           Sample.upper (constant_provider BILLING_REPLY)
           (initial_state "Hello there" []) "Hello there" [] BILLING_REPLY);
    reflexivity.
Defined.

Lemma classify_message_falls_back_witness :
  @classify_message sample_tools default_settings (Some failing_provider)
    Sample.upper (initial_state "Hello there" [])
  = MkM [LLMInvoke hello_request; RuleBased "Hello there"]
        (Ok (<["intent" := VStr (_rule_based_classification "Hello there")]>
               (@with_language sample_tools default_settings Sample.upper
                  "Hello there" (initial_state "Hello there" [])))).
Proof.
  apply (@classify_message_falls_back sample_tools default_settings
           Sample.upper failing_provider
           (initial_state "Hello there" []) "Hello there" []);
    [reflexivity | reflexivity | reflexivity |].
  left. exists (ProviderError "timeout"). reflexivity.
Defined.

Lemma classify_message_intent_normal_form_witness :
  ∃ st' intent,
    outcome (@classify_message sample_tools default_settings
               (Some (constant_provider BILLING_REPLY)) Sample.upper
               (initial_state "Hello there" [])) = Ok st'
    ∧ st' !! "intent" = Some (VStr intent)
    ∧ Str.lower intent = intent
    ∧ Str.strip intent = intent.
Proof.
  apply (@classify_message_intent_normal_form sample_tools default_settings
           Sample.upper (Some (constant_provider BILLING_REPLY))
           (initial_state "Hello there" []));
    reflexivity.
Defined.

Lemma node_assigns_only_its_keys_witness :
  ∃ st', outcome (@run_stage sample_tools sample_formatter default_settings
                    (Some failing_provider) Sample.upper Generate state_urgent)
         = Ok st'
    ∧ ∀ k, k ∉ node_writes Generate → st' !! k = state_urgent !! k.
Proof.
  apply (@node_assigns_only_its_keys sample_tools sample_formatter
        default_settings
           (Some failing_provider) Sample.upper Generate state_urgent).
  reflexivity.
Defined.

Lemma nodes_compose_witness :
  ∃ st', outcome (@run_stages sample_tools sample_formatter default_settings
                    (Some failing_provider) Sample.upper
                    [Validate; Generate; Classify; Classify; CheckEscalation]
                    (initial_state "Hello there" []))
         = Ok st'
    ∧ in_model st' = true.
Proof.
  apply (@nodes_compose sample_tools sample_formatter
        default_settings (Some failing_provider)
           Sample.upper [Validate; Generate; Classify; Classify; CheckEscalation]
           (initial_state "Hello there" [])).
  reflexivity.
Defined.

Lemma node_provider_calls_witness :
  llm_calls (trace (@run_stage sample_tools sample_formatter default_settings
                      (Some failing_provider) Sample.upper Validate state_invalid))
  = []
  ∧ llm_calls (trace (@run_stage sample_tools sample_formatter
        default_settings None Sample.upper
                        Classify (initial_state "Hello there" [])))
    = [].
Proof.
  destruct (@node_provider_calls sample_tools sample_formatter default_settings
              (Some failing_provider) Sample.upper Validate state_invalid)
    as (_ & Hnode & _).
  destruct (@node_provider_calls sample_tools sample_formatter
        default_settings None Sample.upper
              Classify (initial_state "Hello there" []))
    as (_ & _ & Hnone).
  split.
  - apply Hnode; discriminate.
  - apply Hnone. reflexivity.
Defined.

Lemma generate_response_mock_fallback_witness :
  ∃ base,
    (MOCK_RESPONSES !! "general" = Some base
     ∨ (MOCK_RESPONSES !! "general" = None ∧ MOCK_RESPONSES !! "general" = Some base))
    ∧ outcome (@generate_response sample_tools sample_formatter default_settings
                 (Some failing_provider) Sample.upper spanish_state)
      = Ok (<["response" :=
                VStr (@adjust_response_for_sentiment sample_tools base 0%float)]>
              spanish_state).
Proof.
  apply (@generate_response_mock_fallback sample_tools sample_formatter
        default_settings
           (Some failing_provider) Sample.upper spanish_state
           "general" "A" "es" 0%float);
    [reflexivity | reflexivity | reflexivity | reflexivity | reflexivity |].
  right. exists failing_provider, (ProviderError "timeout"). split; reflexivity.
Defined.

Lemma get_prompt_for_intent_known_witness :
  @_get_prompt_for_intent composing_tools "billing" "A" = GENERAL_RESPONSE_PROMPT_A.
Proof.
  destruct (@get_prompt_for_intent_known composing_tools "billing" "A")
    as [_ Hunknown].
  apply Hunknown. reflexivity.
Defined.

Lemma check_escalation_flag_witness :
  ∃ st', @check_escalation sample_tools state_flagged = MkM [] (Ok st')
    ∧ st' !! "requires_escalation"
      = Some (VBool
                (eq_str (get state_flagged "intent" (VStr "")) "urgent"
                 || PrimFloat.leb
                      (@extract_sentiment_indicators sample_tools "I have a question")
                      NEGATIVE_THRESHOLD
                 || true))
    ∧ (eq_str (get state_flagged "intent" (VStr "")) "urgent"
       || PrimFloat.leb
            (@extract_sentiment_indicators sample_tools "I have a question")
            NEGATIVE_THRESHOLD
       = false →
       st' !! "escalation_reason" = state_flagged !! "escalation_reason").
Proof.
  apply (@check_escalation_flag sample_tools state_flagged "I have a question" true);
    reflexivity.
Defined.

Lemma get_llm_client_witness :
  class_of_name (routed_name openai_settings None) = Some ChatOpenAI
  ∧ key_for openai_settings ChatOpenAI = Some "sk-test"
  ∧ "sk-test" ≠ ""
  ∧ 0%float = default (agent_temperature openai_settings) (temperature zero_kwargs)
  ∧ 0%Z = default (agent_max_tokens openai_settings) (max_tokens zero_kwargs)
  ∧ [("timeout", "30")] = other_kwargs zero_kwargs.
Proof.
  apply (get_llm_client full_imports openai_settings None zero_kwargs
           (Client ChatOpenAI "sk-test" "gpt-4" 0%float 0%Z None [("timeout", "30")])).
  reflexivity.
Defined.

Lemma get_llm_name_normalised_witness :
  get_llm full_imports default_llm_settings (Some "  OpenAI ") no_kwargs
  = get_llm full_imports default_llm_settings
      (Some (Str.strip (Str.lower "  OpenAI "))) no_kwargs.
Proof.
  apply (get_llm_name_normalised full_imports default_llm_settings "  OpenAI "
           no_kwargs).
  vm_compute. discriminate.
Defined.

Lemma initialize_llm_agrees_with_get_llm_witness :
  get_llm full_imports openai_settings None no_kwargs = inr (Some openai_client).
Proof.
  apply (initialize_llm_agrees_with_get_llm full_imports openai_settings
           openai_client); reflexivity.
Defined.

Lemma initialize_llm_exact_names_witness :
  _initialize_llm chatgpt_settings = None
  ∧ ∃ c, get_llm full_imports chatgpt_settings None no_kwargs = inr (Some c)
         ∧ client_class_of c = ChatOpenAI.
Proof.
  apply (initialize_llm_exact_names full_imports chatgpt_settings ChatOpenAI);
    (reflexivity || discriminate).
Defined.

Lemma get_llm_cached_serves_requested_class_witness :
  class_of_name
    (Str.strip (Str.lower (str_or (Some "OpenAI") (llm_provider default_llm_settings))))
  = Some (client_class_of openai_client).
Proof.
  apply (get_llm_cached_serves_requested_class
           [CallCached full_imports openai_settings None no_kwargs;
            CallReset;
            CallCached full_imports default_llm_settings None no_kwargs]
           full_imports openai_settings (Some "OpenAI") no_kwargs openai_client).
  reflexivity.
Defined.

Lemma get_llm_cached_reuses_client_witness :
  get_llm_cached full_imports default_llm_settings (Some "openai") zero_kwargs
    openai_cache
  = (inr (Some openai_client), openai_cache).
Proof.
  apply (get_llm_cached_reuses_client full_imports full_imports
           openai_settings default_llm_settings None (Some "openai")
           no_kwargs zero_kwargs empty_llm_cache openai_cache openai_client);
    reflexivity.
Defined.

Lemma get_llm_cached_miss_and_error_witness :
  (get_llm_cached full_imports default_llm_settings None no_kwargs
     empty_llm_cache).1
  = get_llm full_imports default_llm_settings None no_kwargs
  ∧ (get_llm_cached full_imports default_llm_settings (Some "claude") no_kwargs
       openai_cache).2
    = openai_cache.
Proof.
  destruct (get_llm_cached_miss_and_error full_imports default_llm_settings
              None no_kwargs empty_llm_cache) as (Hmiss & _ & _).
  destruct (get_llm_cached_miss_and_error full_imports default_llm_settings
              (Some "claude") no_kwargs openai_cache) as (_ & _ & Herr).
  split.
  - apply Hmiss. reflexivity.
  - apply (Herr (ValueError "ANTHROPIC_API_KEY not set in environment or settings")).
    reflexivity.
Defined.
